(** * ecocue: the carbon calculator (script.js) and the CSV dashboard
      (the dashboard script shipped in service-worker.js)

    Shallow embedding of the two scripts and the properties of their
    parser, aggregation, analytics and history store.

    Modelling conventions.
    - A JavaScript number is an exact rational or one of NaN, +Infinity,
      -Infinity.  The special values follow IEEE 754 (0/0 is NaN, x/0 is an
      infinity, NaN is falsy and absorbing); binary64 rounding and the sign
      of zero are not modelled.
    - A string is a sequence of code units below 256.
    - A plain object used as a dictionary is the ordered list of its own
      properties; keys that name a member of Object.prototype are outside
      the model.
    - Host services whose result the language leaves to the implementation
      or to the environment (date parsing, the local calendar, JSON text)
      are fields of a host record. *)

From Stdlib Require Import ZArith QArith Qcanon List String Ascii Bool Lia.
From Stdlib Require Import Permutation Sorted.
Import ListNotations.

Set Implicit Arguments.

(** ** Numbers *)

Module JSNumber.

Inductive num : Type :=
| NaN
| PInf
| NInf
| Fin (q : Qc).

Definition of_Z (z : Z) : num := Fin (Q2Qc (inject_Z z)).

(** The decimal literal [m / 10^e], e.g. [dec 82 2] for [0.82]. *)
Definition dec (m : Z) (e : nat) : num :=
  Fin (Q2Qc (Qmake m (Z.to_pos (10 ^ Z.of_nat e)))).

Definition zero : num := of_Z 0.

Definition isFinite (x : num) : bool :=
  match x with Fin _ => true | _ => false end.

(** Sign of a number; NaN has none. *)
Definition sign (x : num) : option comparison :=
  match x with
  | NaN => None
  | PInf => Some Gt
  | NInf => Some Lt
  | Fin q => Some (Qccompare q 0)
  end.

(** ToBoolean on numbers: 0 and NaN are falsy. *)
Definition truthy (x : num) : bool :=
  match x with
  | NaN => false
  | Fin q => if Qc_eq_dec q 0 then false else true
  | _ => true
  end.

Definition neg (x : num) : num :=
  match x with
  | NaN => NaN
  | PInf => NInf
  | NInf => PInf
  | Fin q => Fin (- q)
  end.

Definition add (x y : num) : num :=
  match x, y with
  | NaN, _ | _, NaN => NaN
  | PInf, NInf | NInf, PInf => NaN
  | PInf, _ | _, PInf => PInf
  | NInf, _ | _, NInf => NInf
  | Fin a, Fin b => Fin (a + b)
  end.

Definition sub (x y : num) : num := add x (neg y).

Definition inf_of (c : comparison) : num :=
  match c with Gt => PInf | Lt => NInf | Eq => NaN end.

Definition flip (c : comparison) : comparison := CompOpp c.

Definition mul (x y : num) : num :=
  match x, y with
  | NaN, _ | _, NaN => NaN
  | PInf, PInf | NInf, NInf => PInf
  | PInf, NInf | NInf, PInf => NInf
  | PInf, Fin b | Fin b, PInf => inf_of (Qccompare b 0)
  | NInf, Fin b | Fin b, NInf => inf_of (flip (Qccompare b 0))
  | Fin a, Fin b => Fin (a * b)
  end.

Definition div (x y : num) : num :=
  match x, y with
  | NaN, _ | _, NaN => NaN
  | Fin a, Fin b =>
      if Qc_eq_dec b 0 then inf_of (Qccompare a 0) else Fin (a / b)
  | Fin _, _ => zero
  | PInf, Fin b => match Qccompare b 0 with Lt => NInf | _ => PInf end
  | NInf, Fin b => match Qccompare b 0 with Lt => PInf | _ => NInf end
  | _, _ => NaN
  end.

(** [x > 0]; false on NaN. *)
Definition gt0 (x : num) : bool :=
  match sign x with Some Gt => true | _ => false end.

(** [x === y] on numbers. *)
Definition eqb (x y : num) : bool :=
  match x, y with
  | PInf, PInf | NInf, NInf => true
  | Fin a, Fin b => if Qc_eq_dec a b then true else false
  | _, _ => false
  end.

(** [v || 0] where [v] is a number or undefined. *)
Definition or0 (v : option num) : num :=
  match v with
  | Some x => if truthy x then x else zero
  | None => zero
  end.

(** An observation of a number that is independent of the canonicity
    proof carried by [Qc]. *)
Inductive view : Type := VNaN | VPInf | VNInf | VQ (q : Q).

Definition show (x : num) : view :=
  match x with
  | NaN => VNaN | PInf => VPInf | NInf => VNInf
  | Fin q => VQ (this q)
  end.

End JSNumber.
Export JSNumber.

(** ** Strings *)

Module JSString.

Local Open Scope string_scope.

Definition code (c : ascii) : N := N_of_ascii c.

Definition LF : ascii := ascii_of_N 10.
Definition CR : ascii := ascii_of_N 13.

(** WhiteSpace and LineTerminator code units (below 256): the characters
    removed by [String.prototype.trim] and skipped by [parseFloat]. *)
Definition is_whitespace (c : ascii) : bool :=
  let n := code c in
  ((9 <=? n) && (n <=? 13) || (n =? 32) || (n =? 160))%N.

Fixpoint trimStart (s : string) : string :=
  match s with
  | String c s' => if is_whitespace c then trimStart s' else s
  | EmptyString => EmptyString
  end.

Fixpoint trimEnd (s : string) : string :=
  match s with
  | String c s' =>
      match trimEnd s' with
      | EmptyString => if is_whitespace c then EmptyString else String c EmptyString
      | t => String c t
      end
  | EmptyString => EmptyString
  end.

Definition trim (s : string) : string := trimEnd (trimStart s).

Definition lower_char (c : ascii) : ascii :=
  let n := code c in
  if ((65 <=? n) && (n <=? 90)
      || (192 <=? n) && (n <=? 222) && negb (n =? 215))%N
  then ascii_of_N (n + 32) else c.

Fixpoint toLowerCase (s : string) : string :=
  match s with
  | String c s' => String (lower_char c) (toLowerCase s')
  | EmptyString => EmptyString
  end.

Definition startsWith (s p : string) : bool := String.prefix p s.

Definition cons_first (c : ascii) (l : list string) : list string :=
  match l with
  | w :: ws => String c w :: ws
  | [] => [String c EmptyString]
  end.

(** [s.split(sep)] for a one-character separator. *)
Fixpoint split_char (sep : ascii) (s : string) : list string :=
  match s with
  | String c s' =>
      if Ascii.eqb c sep then EmptyString :: split_char sep s'
      else cons_first c (split_char sep s')
  | EmptyString => [EmptyString]
  end.

(** [s.split(/\r?\n/)]: a line ends at LF or at CR LF; a CR that is not
    followed by LF stays in the line. *)
Fixpoint split_lines (s : string) : list string :=
  match s with
  | String c s' =>
      if Ascii.eqb c LF then EmptyString :: split_lines s'
      else
        match s' with
        | String d s'' =>
            if Ascii.eqb c CR && Ascii.eqb d LF
            then EmptyString :: split_lines s''
            else cons_first c (split_lines s')
        | EmptyString => [String c EmptyString]
        end
  | EmptyString => [EmptyString]
  end.

(** ToBoolean on strings: only the empty string is falsy. *)
Definition nonempty (s : string) : bool :=
  match s with EmptyString => false | _ => true end.

(** *** Decimal digits *)

Definition is_digit (c : ascii) : bool :=
  let n := code c in ((48 <=? n) && (n <=? 57))%N.

Definition digit_val (c : ascii) : N := (code c - 48)%N.

Definition digit_char (d : N) : ascii := ascii_of_N (48 + d).

Fixpoint digits_fuel (fuel : nat) (n : N) (acc : string) : string :=
  match fuel with
  | O => acc
  | S f =>
      let acc' := String (digit_char (n mod 10)) acc in
      if (n / 10 =? 0)%N then acc' else digits_fuel f (n / 10) acc'
  end.

(** Number::toString on a non-negative integer. *)
Definition N_to_string (n : N) : string :=
  digits_fuel (S (N.to_nat (N.log2 n))) n EmptyString.

(** Number::toString on an integer. *)
Definition Z_to_string (z : Z) : string :=
  if (z <? 0)%Z then String "-" (N_to_string (Z.abs_N z))
  else N_to_string (Z.to_N z).

Fixpoint repeat_char (c : ascii) (n : nat) (s : string) : string :=
  match n with
  | O => s
  | S n' => String c (repeat_char c n' s)
  end.

(** [s.padStart(n, c)] for a one-character filler. *)
Definition padStart (n : nat) (c : ascii) (s : string) : string :=
  repeat_char c (n - String.length s) s.

(** Longest prefix of decimal digits, and the rest. *)
Fixpoint take_digits (s : string) : string * string :=
  match s with
  | String c s' =>
      if is_digit c
      then let (d, r) := take_digits s' in (String c d, r)
      else (EmptyString, s)
  | EmptyString => (EmptyString, EmptyString)
  end.

Fixpoint digits_value (acc : N) (s : string) : N :=
  match s with
  | String c s' => digits_value (10 * acc + digit_val c) s'
  | EmptyString => acc
  end.

(** An array index is the canonical decimal form of an integer in
    [0, 2^32 - 2]; such property keys are enumerated first. *)
Definition array_index (s : string) : option N :=
  match take_digits s with
  | (String c d, EmptyString) =>
      let n := digits_value 0 (String c d) in
      if (negb (Ascii.eqb c "0") || negb (nonempty d)) && (n <=? 4294967294)%N
      then Some n else None
  | _ => None
  end.

(** *** parseFloat *)

Definition strip_sign (s : string) : bool * string :=
  match s with
  | String c s' =>
      if Ascii.eqb c "-" then (true, s')
      else if Ascii.eqb c "+" then (false, s')
      else (false, s)
  | EmptyString => (false, s)
  end.

(** The exponent part [e[+-]ddd] when it is complete, else 0. *)
Definition exponent_part (s : string) : Z :=
  match s with
  | String c s' =>
      if Ascii.eqb c "e" || Ascii.eqb c "E" then
        let (negative, s'') := strip_sign s' in
        match take_digits s'' with
        | (EmptyString, _) => 0%Z
        | (d, _) =>
            let v := Z.of_N (digits_value 0 d) in
            if negative then (- v)%Z else v
        end
      else 0%Z
  | EmptyString => 0%Z
  end.

Definition pow10 (e : Z) : Qc :=
  if (e <? 0)%Z
  then Q2Qc (Qmake 1 (Z.to_pos (10 ^ (- e))))
  else Q2Qc (inject_Z (10 ^ e)).

Definition signed (negative : bool) (x : num) : num :=
  if negative then neg x else x.

(** [parseFloat(s)]: the longest prefix of [s], after leading white
    space, that is a decimal literal; NaN when there is none. *)
Definition parseFloat (s : string) : num :=
  let (negative, body) := strip_sign (trimStart s) in
  if startsWith body "Infinity" then signed negative PInf
  else
    let (ip, r1) := take_digits body in
    let (fp, r2) :=
      match r1 with
      | String c r =>
          if Ascii.eqb c "." then take_digits r else (EmptyString, r1)
      | EmptyString => (EmptyString, r1)
      end in
    if nonempty ip || nonempty fp then
      let mant := Z.of_N (digits_value 0 (ip ++ fp)) in
      let e := (exponent_part r2 - Z.of_nat (String.length fp))%Z in
      signed negative (Fin (Q2Qc (inject_Z mant) * pow10 e))
    else NaN.

End JSString.
Export JSString.

(** ** Objects used as dictionaries, arrays *)

Module JSObject.

Section Obj.
Variable A : Type.

(** Own properties in creation order. *)
Definition obj : Type := list (string * A).

Definition empty : obj := [].

(** [o[k]]; [None] is undefined. *)
Fixpoint get (k : string) (o : obj) : option A :=
  match o with
  | (k', v) :: o' => if String.eqb k' k then Some v else get k o'
  | [] => None
  end.

(** [o[k] = v]: an existing property keeps its place. *)
Fixpoint set (k : string) (v : A) (o : obj) : obj :=
  match o with
  | (k', v') :: o' =>
      if String.eqb k' k then (k, v) :: o' else (k', v') :: set k v o'
  | [] => [(k, v)]
  end.

(** Enumeration order of own properties: array indices in ascending
    numeric order, then the other keys in creation order. *)
Fixpoint insert_index (e : N * (string * A)) (l : list (N * (string * A)))
  : list (N * (string * A)) :=
  match l with
  | e' :: l' =>
      if (fst e' <? fst e)%N then e' :: insert_index e l' else e :: l
  | [] => [e]
  end.

Fixpoint index_props (o : obj) : list (N * (string * A)) :=
  match o with
  | kv :: o' =>
      match array_index (fst kv) with
      | Some n => insert_index (n, kv) (index_props o')
      | None => index_props o'
      end
  | [] => []
  end.

Definition is_named (kv : string * A) : bool :=
  match array_index (fst kv) with Some _ => false | None => true end.

Definition Object_entries (o : obj) : list (string * A) :=
  map snd (index_props o) ++ filter is_named o.

Definition Object_keys (o : obj) : list string := map fst (Object_entries o).

Definition Object_values (o : obj) : list A := map snd (Object_entries o).

(** [Array.prototype.sort(comparefn)]: the sort is stable; [x] moves
    behind [y] only when [comparefn(x, y) > 0] (a NaN result counts as 0).
    For a consistent comparator every stable sort gives this result. *)
Variable comparefn : A -> A -> num.

Fixpoint sort_insert (x : A) (l : list A) : list A :=
  match l with
  | y :: l' => if gt0 (comparefn x y) then y :: sort_insert x l' else x :: l
  | [] => [x]
  end.

Definition sort (l : list A) : list A := fold_right sort_insert [] l.

End Obj.

Arguments empty {A}.

(** The comparator of [sort()] without argument: code-unit order. *)
Definition default_compare (x y : string) : num :=
  match String.compare x y with
  | Lt => of_Z (-1)
  | Eq => zero
  | Gt => of_Z 1
  end.

Definition sort_default (l : list string) : list string :=
  sort default_compare l.

(** [l.reduce((a, b) => a + b, 0)] *)
Definition sum (l : list num) : num := fold_left add l zero.

(** ToString on a string that may be undefined; also the property key
    made from such a value. *)
Definition ToString (v : option string) : string :=
  match v with Some s => s | None => "undefined"%string end.

End JSObject.
Export JSObject.

(** ** Host services *)

(** [Date_parse s] is the time value of [new Date(s)], [None] for an
    invalid date; the two getters read the local calendar. *)
Record DateHost : Type := {
  Date_parse : string -> option Z;
  getFullYear : Z -> Z;
  getMonth : Z -> Z
}.

(** [JSON_parse s] is [None] when [JSON.parse(s)] throws. *)
#[local] Unset Elimination Schemes.
Inductive json : Type :=
| JNull
| JBool (b : bool)
| JNumber (x : num)
| JString (s : string)
| JArray (l : list json)
| JObject (o : list (string * json)).
#[local] Set Elimination Schemes.

Record JSONHost : Type := {
  JSON_parse : string -> option json;
  JSON_stringify : json -> string
}.

Inductive error : Type := TypeError | SyntaxError.

Inductive result (A : Type) : Type :=
| Ok (a : A)
| Throw (e : error).

Arguments Ok {A} a.
Arguments Throw {A} e.

(** ** The CSV dashboard (service-worker.js, dashboard script) *)

Module Dashboard.

Local Open Scope string_scope.

Definition EMISSION_FACTORS : obj num :=
  [ ("electricity", dec 82 2);
    ("transport_car", dec 17067 5);
    ("transport_bus", dec 11 2);
    ("transport_train", dec 4 2);
    ("transport_flight", dec 46 2);
    ("waste", dec 10 1) ].

(** A parsed line.  [fields] holds the properties copied from the line
    under the header names; the properties [date], [amount] and [category],
    which the parser overwrites with typed values, are the three other
    fields. *)
Record Row : Type := {
  fields : obj string;
  date : Z;
  amount : num;
  category : string
}.

(** [rec.department]; [None] when the header has no such column. *)
Definition department (r : Row) : option string := get "department" (fields r).

(** A record after [processData] has set [rec.emission]. *)
Record ActivityRecord : Type := {
  row : Row;
  emission : num
}.

Section WithHost.
Variable host : DateHost.

Definition new_Date (v : option string) : option Z :=
  match v with
  | Some s => Date_parse host s
  | None => None
  end.

Definition header_of (line : string) : list string :=
  map (fun h => toLowerCase (trim h)) (split_char "," line).

(** [values[idx] ? values[idx].trim() : ''] *)
Definition field_value (values : list string) (idx : nat) : string :=
  match nth_error values idx with
  | Some v => if nonempty v then trim v else ""
  | None => ""
  end.

(** [header.forEach((key, idx) => { record[key] = ... })] *)
Fixpoint build_record (header : list string) (idx : nat)
  (values : list string) (record : obj string) : obj string :=
  match header with
  | key :: header' =>
      build_record header' (S idx) values
        (set key (field_value values idx) record)
  | [] => record
  end.

Definition skipped (line : string) : bool :=
  negb (nonempty line) || startsWith line "#".

(** The loop over [lines[1..]]. *)
Fixpoint parse_lines (header : list string) (lines : list string)
  (data : list Row) : result (list Row) :=
  match lines with
  | line :: rest =>
      if skipped line then parse_lines header rest data
      else
        let values := split_char "," line in
        let record := build_record header 0 values empty in
        match new_Date (get "date" record) with
        | None => parse_lines header rest data
        | Some d =>
            let a := parseFloat (ToString (get "amount" record)) in
            match get "category" record with
            | None => Throw TypeError
            | Some c =>
                parse_lines header rest
                  (data ++ [ {| fields := record; date := d; amount := a;
                                category := toLowerCase c |} ])
            end
        end
  | [] => Ok data
  end.

Definition parseCSV_lines (lines : list string) : result (list Row) :=
  match lines with
  | header_line :: (_ :: _) as rest =>
      parse_lines (header_of header_line) rest []
  | _ => Ok []
  end.

Definition parseCSV (text : string) : result (list Row) :=
  parseCSV_lines (split_lines (trim text)).

(** *** processData *)

Definition factor_of (cat : string) : num := or0 (get cat EMISSION_FACTORS).

Definition with_emission (r : Row) : ActivityRecord :=
  {| row := r; emission := mul (factor_of (category r)) (amount r) |}.

Definition by_date (a b : ActivityRecord) : num :=
  sub (of_Z (date (row a))) (of_Z (date (row b))).

Definition computed (activityData : list Row) : list ActivityRecord :=
  sort by_date (map with_emission activityData).

(** *** renderSummary *)

Definition by_value_desc (a b : string * num) : num := sub (snd b) (snd a).

(** [if (!totals[k]) totals[k] = 0; totals[k] += e] *)
Definition accumulate (k : string) (e : num) (totals : obj num) : obj num :=
  let totals' :=
    match get k totals with
    | Some v => if truthy v then totals else set k zero totals
    | None => set k zero totals
    end in
  match get k totals' with
  | Some v => set k (add v e) totals'
  | None => set k NaN totals'
  end.

Definition dept_key (rec : ActivityRecord) : string :=
  ToString (department (row rec)).

Definition cat_key (rec : ActivityRecord) : string := category (row rec).

Record Summary : Type := {
  total : num;
  deptTotals : obj num;
  catTotals : obj num;
  topDept : option (string * num);
  topCat : option (string * num)
}.

Definition renderSummary (activityData : list ActivityRecord) : Summary :=
  let total := fold_left (fun sum rec => add sum (emission rec)) activityData zero in
  let deptTotals :=
    fold_left (fun t rec => accumulate (dept_key rec) (emission rec) t)
      activityData empty in
  let catTotals :=
    fold_left (fun t rec => accumulate (cat_key rec) (emission rec) t)
      activityData empty in
  {| total := total;
     deptTotals := deptTotals;
     catTotals := catTotals;
     topDept := hd_error (sort by_value_desc (Object_entries deptTotals));
     topCat := hd_error (sort by_value_desc (Object_entries catTotals)) |}.

(** *** renderBarCharts, renderTrendChart, renderAnalysis *)

(** [totals[k] = (totals[k] || 0) + e] *)
Definition bump (k : string) (e : num) (totals : obj num) : obj num :=
  set k (add (or0 (get k totals)) e) totals.

Definition totals_by (key : ActivityRecord -> string)
  (activityData : list ActivityRecord) : obj num :=
  fold_left (fun t rec => bump (key rec) (emission rec) t) activityData empty.

Definition monthKey (rec : ActivityRecord) : string :=
  Z_to_string (getFullYear host (date (row rec))) ++ "-"
  ++ padStart 2 "0" (Z_to_string (getMonth host (date (row rec)) + 1)).

(** Labels and values handed to [drawLineChart]. *)
Definition renderTrendChart (activityData : list ActivityRecord)
  : list string * list (option num) :=
  let monthlyTotals := totals_by monthKey activityData in
  let labels := sort_default (Object_keys monthlyTotals) in
  (labels, map (fun k => get k monthlyTotals) labels).

Definition generic_cue : string :=
  "Explore opportunities to reduce emissions in this category by analysing operations and engaging stakeholders.".

Definition generateCue (cat : string) : string :=
  if cat =? "electricity" then
    "High electricity emissions indicate opportunities for energy efficiency. Consider upgrading to LED lighting, optimising HVAC systems, and sourcing renewable electricity where possible."
  else if cat =? "transport_car" then
    "Car travel is a significant emitter. Encourage carpooling, promote public transport or EV options, and optimise routes to reduce distance travelled."
  else if cat =? "transport_bus" then
    "Bus travel emits less per kilometre than cars but emissions can still be lowered by switching to electric or hybrid buses and optimising schedules."
  else if cat =? "transport_train" then
    "Train travel is relatively low-carbon. Promote its use over flights or cars for inter-city trips to cut emissions further."
  else if cat =? "transport_flight" then
    "Flights have very high emissions. Evaluate if trips can be replaced by virtual meetings or train travel, and offset necessary flights through verified programmes."
  else if cat =? "waste" then
    "Waste-related emissions suggest opportunities in waste reduction, recycling and composting. Audit waste streams and engage suppliers to reduce packaging."
  else generic_cue.

(** [(val / total) * 100] *)
Definition share (val total : num) : num := mul (div val total) (of_Z 100).

Record Cue : Type := {
  cue_category : string;
  cue_share : num;
  cue_text : string
}.

Definition analysis_total (activityData : list ActivityRecord) : num :=
  sum (Object_values (totals_by cat_key activityData)).

Definition analysis_sorted (activityData : list ActivityRecord)
  : list (string * num) :=
  sort by_value_desc (Object_entries (totals_by cat_key activityData)).

Definition renderAnalysis (activityData : list ActivityRecord) : list Cue :=
  let total := analysis_total activityData in
  map (fun e => {| cue_category := fst e;
                   cue_share := share (snd e) total;
                   cue_text := generateCue (fst e) |})
      (analysis_sorted activityData).

(** What one run of [processData] displays; [None] when it returns
    before rendering (no data). *)
Record Rendered : Type := {
  shown : list ActivityRecord;
  summary : Summary;
  trend : list string * list (option num);
  analysis : list Cue
}.

Definition processData (activityData : list Row) : option Rendered :=
  match activityData with
  | [] => None
  | _ =>
      let data := computed activityData in
      Some {| shown := data;
              summary := renderSummary data;
              trend := renderTrendChart data;
              analysis := renderAnalysis data |}
  end.

(** The load handlers: [activityData = parseCSV(text); processData()]. *)
Definition onload (text : string) : result (option Rendered) :=
  match parseCSV text with
  | Ok rows => Ok (processData rows)
  | Throw e => Throw e
  end.

End WithHost.

End Dashboard.

(** ** The single-session calculator (script.js) *)

Module Script.

Local Open Scope string_scope.

Definition EMISSION_FACTORS : obj num :=
  [ ("car", dec 18 2);
    ("bus", dec 11 2);
    ("train", dec 4 2);
    ("flight", dec 46 2) ].

Definition ELECTRICITY_FACTOR : num := dec 82 2.

Definition MEAT_MEAL_FACTOR : num := of_Z 15.

(** The part of the page the script reads and writes: the item
    [carbonHistory] of localStorage, the attribute [data-result] of the
    results element, the alerts shown so far and the history container. *)
Inductive HistoryView : Type :=
| Cleared
| NoHistory
| Table (rows : list (option json * num * num * num * num)).

Record Page : Type := {
  carbonHistory : option string;
  dataset_result : option string;
  alerts : list string;
  historyContainer : HistoryView
}.

(** Statements run on the page and may throw; what was written before a
    throw stays written. *)
Definition M (A : Type) : Type := Page -> result A * Page.

Definition ret {A} (a : A) : M A := fun p => (Ok a, p).

Definition throw {A} (e : error) : M A := fun p => (Throw e, p).

Definition bind {A B} (m : M A) (k : A -> M B) : M B :=
  fun p =>
    match m p with
    | (Ok a, p') => k a p'
    | (Throw e, p') => (Throw e, p')
    end.

Notation "x <- m ;; k" := (bind m (fun x => k))
  (at level 61, m at next level, right associativity).
Notation "m ;;; k" := (bind m (fun _ => k))
  (at level 61, right associativity).

Definition alert (msg : string) : M unit :=
  fun p => (Ok tt, {| carbonHistory := carbonHistory p;
                      dataset_result := dataset_result p;
                      alerts := alerts p ++ [msg];
                      historyContainer := historyContainer p |}).

Definition getItem : M (option string) := fun p => (Ok (carbonHistory p), p).

Definition write_item (v : option string) : M unit :=
  fun p => (Ok tt, {| carbonHistory := v;
                      dataset_result := dataset_result p;
                      alerts := alerts p;
                      historyContainer := historyContainer p |}).

Definition setItem (v : string) : M unit := write_item (Some v).

Definition removeItem : M unit := write_item None.

Definition set_dataset_result (v : string) : M unit :=
  fun p => (Ok tt, {| carbonHistory := carbonHistory p;
                      dataset_result := Some v;
                      alerts := alerts p;
                      historyContainer := historyContainer p |}).

Definition display (v : HistoryView) : M unit :=
  fun p => (Ok tt, {| carbonHistory := carbonHistory p;
                      dataset_result := dataset_result p;
                      alerts := alerts p;
                      historyContainer := v |}).

Definition lift {A} (r : result A) : M A := fun p => (r, p).

Section WithHost.
Variable host : JSONHost.

(** ToBoolean on a parsed value. *)
Definition json_truthy (v : json) : bool :=
  match v with
  | JNull => false
  | JBool b => b
  | JNumber x => truthy x
  | JString s => nonempty s
  | JArray _ | JObject _ => true
  end.

(** [JSON.parse(item)] for an item read from storage; an absent item is
    [null], whose text parses to [null]. *)
Definition parse_item (item : option string) : option json :=
  match item with
  | Some s => JSON_parse host s
  | None => Some JNull
  end.

(** [try { history = JSON.parse(...) || [] } catch (err) { history = [] }] *)
Definition stored_history (item : option string) : json :=
  match parse_item item with
  | Some v => if json_truthy v then v else JArray []
  | None => JArray []
  end.

(** [v[k]]: throws on [null]. *)
Definition prop (k : string) (v : json) : result (option json) :=
  match v with
  | JNull => Throw TypeError
  | JObject o => Ok (get k o)
  | _ => Ok None
  end.

(** [v.toFixed(...)] needs a number. *)
Definition number_of (v : option json) : result num :=
  match v with
  | Some (JNumber x) => Ok x
  | _ => Throw TypeError
  end.

Definition and_then {A B} (r : result A) (k : A -> result B) : result B :=
  match r with
  | Ok a => k a
  | Throw e => Throw e
  end.

Definition member (k : string) (v : option json) : result (option json) :=
  match v with
  | Some w => prop k w
  | None => Throw TypeError
  end.

(** One table row: the date, the total and the three details. *)
Definition table_row (entry : json)
  : result (option json * num * num * num * num) :=
  and_then (prop "date" entry) (fun d =>
  and_then (and_then (prop "total" entry) number_of) (fun t =>
  and_then (prop "details" entry) (fun details =>
  and_then (and_then (member "transport" details) number_of) (fun tr =>
  and_then (and_then (member "electricity" details) number_of) (fun el =>
  and_then (and_then (member "meat" details) number_of) (fun me =>
  Ok (d, t, tr, el, me))))))).

Fixpoint table_rows (entries : list json)
  : result (list (option json * num * num * num * num)) :=
  match entries with
  | e :: es =>
      and_then (table_row e) (fun r =>
      and_then (table_rows es) (fun rs => Ok (r :: rs)))
  | [] => Ok []
  end.

(** [history.length === 0] *)
Definition length_is_zero (history : json) : bool :=
  match history with
  | JArray l => match l with [] => true | _ => false end
  | JString s => negb (nonempty s)
  | JObject o =>
      match get "length" o with
      | Some (JNumber x) => JSNumber.eqb x zero
      | _ => false
      end
  | _ => false
  end.

Definition loadHistory : M unit :=
  item <- getItem ;;
  let history := stored_history item in
  display Cleared ;;;
  if length_is_zero history then display NoHistory
  else
    match history with
    | JArray entries =>
        rows <- lift (table_rows entries) ;;
        display (Table rows)
    | _ => throw TypeError
    end.

(** [history.push(entry)] *)
Definition push (history : json) (entry : json) : result json :=
  match history with
  | JArray l => Ok (JArray (l ++ [entry]))
  | _ => Throw TypeError
  end.

Definition please_calculate : string :=
  "Please calculate your emissions first.".

Definition saved_message : string :=
  "Your result has been saved to your dashboard!".

Definition saveResult : M unit :=
  fun p =>
    match dataset_result p with
    | None => alert please_calculate p
    | Some data =>
        if negb (nonempty data) then alert please_calculate p
        else
          (entry <- lift (match JSON_parse host data with
                          | Some v => Ok v
                          | None => Throw SyntaxError
                          end) ;;
           item <- getItem ;;
           history <- lift (push (stored_history item) entry) ;;
           setItem (JSON_stringify host history) ;;;
           loadHistory ;;;
           alert saved_message) p
    end.

(** [confirmed] is the answer to the confirmation dialog. *)
Definition clearHistory (confirmed : bool) : M unit :=
  if confirmed then removeItem ;;; loadHistory else ret tt.

(** [parseFloat(input) || 0] *)
Definition input_number (value : string) : num :=
  or0 (Some (parseFloat value)).

Record Emissions : Type := {
  transportEmission : num;
  electricityEmission : num;
  meatEmission : num;
  totalEmission : num;
  trees : num;
  carKm : num;
  smartphoneCharges : num
}.

Definition emissions (distance mode kWh meatMeals : string) : Emissions :=
  let transport :=
    mul (input_number distance) (or0 (get mode EMISSION_FACTORS)) in
  let electricity := mul (input_number kWh) ELECTRICITY_FACTOR in
  let meat := mul (input_number meatMeals) MEAT_MEAL_FACTOR in
  let total := add (add transport electricity) meat in
  {| transportEmission := transport;
     electricityEmission := electricity;
     meatEmission := meat;
     totalEmission := total;
     trees := div total (of_Z 21);
     carKm := div total (match get "car" EMISSION_FACTORS with
                         | Some f => f
                         | None => NaN
                         end);
     smartphoneCharges := div total (dec 5 3) |}.

Definition entry_of (now : Z) (e : Emissions) : json :=
  JObject
    [ ("date", JNumber (of_Z now));
      ("total", JNumber (totalEmission e));
      ("details",
        JObject [ ("transport", JNumber (transportEmission e));
                  ("electricity", JNumber (electricityEmission e));
                  ("meat", JNumber (meatEmission e)) ]) ].

(** [now] is [Date.now()]. *)
Definition calculateEmissions (distance mode kWh meatMeals : string)
  (now : Z) : M Emissions :=
  let e := emissions distance mode kWh meatMeals in
  set_dataset_result (JSON_stringify host (entry_of now e)) ;;;
  ret e.

End WithHost.

End Script.

(** ** A reference host

    A host in the UTC time zone whose date parser accepts the ISO form
    [YYYY-MM-DD] of a calendar date. *)

Module UTCHost.

Local Open Scope Z_scope.

Definition msPerDay : Z := 86400000.

Definition days_from_civil (y m d : Z) : Z :=
  let y' := if m <=? 2 then y - 1 else y in
  let era := y' / 400 in
  let yoe := y' - era * 400 in
  let mp := (m + 9) mod 12 in
  let doy := (153 * mp + 2) / 5 + d - 1 in
  let doe := yoe * 365 + yoe / 4 - yoe / 100 + doy in
  era * 146097 + doe - 719468.

(** Year and month (1..12) of a day number. *)
Definition civil_from_days (z : Z) : Z * Z :=
  let z' := z + 719468 in
  let era := z' / 146097 in
  let doe := z' - era * 146097 in
  let yoe := (doe - doe / 1460 + doe / 36524 - doe / 146096) / 365 in
  let doy := doe - (365 * yoe + yoe / 4 - yoe / 100) in
  let mp := (5 * doy + 2) / 153 in
  let m := if mp <? 10 then mp + 3 else mp - 9 in
  (yoe + era * 400 + (if m <=? 2 then 1 else 0), m).

Definition is_leap (y : Z) : bool :=
  ((y mod 4 =? 0) && negb (y mod 100 =? 0)) || (y mod 400 =? 0).

Definition days_in_month (y m : Z) : Z :=
  if m =? 2 then (if is_leap y then 29 else 28)
  else if (m =? 4) || (m =? 6) || (m =? 9) || (m =? 11) then 30
  else 31.

Definition all_digits (s : string) : bool :=
  match take_digits s with
  | (_, EmptyString) => true
  | _ => false
  end.

Definition number_of (s : string) : Z := Z.of_N (digits_value 0 s).

Definition parse_iso_date (s : string) : option Z :=
  if (String.length s =? 10)%nat then
    let ys := substring 0 4 s in
    let ms := substring 5 2 s in
    let ds := substring 8 2 s in
    if all_digits ys && all_digits ms && all_digits ds
       && String.eqb (substring 4 1 s) "-" && String.eqb (substring 7 1 s) "-"
    then
      let y := number_of ys in
      let m := number_of ms in
      let d := number_of ds in
      if (1 <=? m) && (m <=? 12) && (1 <=? d) && (d <=? days_in_month y m)
      then Some (days_from_civil y m d * msPerDay)
      else None
    else None
  else None.

Definition host : DateHost :=
  {| Date_parse := parse_iso_date;
     getFullYear := fun t => fst (civil_from_days (t / msPerDay));
     getMonth := fun t => snd (civil_from_days (t / msPerDay)) - 1 |}.

End UTCHost.

(** ** Vocabulary of the statements *)

(** The rational value of a finite number. *)
Definition qval (x : num) : Qc :=
  match x with Fin q => q | _ => 0%Qc end.

(** Exact sum of the rational values. *)
Definition qsum (l : list num) : Qc :=
  fold_right (fun x s => (qval x + s)%Qc) 0%Qc l.

Definition finite (x : num) : Prop := isFinite x = true.

(** The distinct elements of a list, each at its first occurrence. *)
Fixpoint first_occurrences (seen : list string) (l : list string) : list string :=
  match l with
  | k :: l' =>
      if existsb (String.eqb k) seen then first_occurrences seen l'
      else k :: first_occurrences (seen ++ [k]) l'
  | [] => []
  end.

(** The values of an object in creation order, and the emissions of a
    list of records. *)
Definition vals (o : obj num) : list num := map snd o.

Definition emissions_of (data : list Dashboard.ActivityRecord) : list num :=
  map Dashboard.emission data.






(** The share in the words of the specification: guarded against a zero
    total. *)
Definition guarded_share (val total : num) : num :=
  if JSNumber.eqb total zero then zero else Dashboard.share val total.

(** What the division gives when the total is zero. *)
Definition share_of_zero_total (val : num) : num :=
  match Qccompare (qval val) 0 with
  | Eq => NaN
  | Gt => PInf
  | Lt => NInf
  end.

(** The date read from a data line under a header; [None] when the date
    field does not parse to a valid date (or there is no date column). *)
Definition date_of_line (host : DateHost) (header : list string)
  (line : string) : option Z :=
  Dashboard.new_Date host
    (get "date" (Dashboard.build_record header 0 (split_char "," line) empty)).


(** Chronological order of two months, each given by year and month. *)
Definition month_order (y1 m1 y2 m2 : Z) : comparison :=
  match Z.compare y1 y2 with
  | Eq => Z.compare m1 m2
  | c => c
  end.

(** The decimal digits of a four-digit year and of a month number, as the
    text that [monthKey] is expected to produce. *)
Definition digit_of (z : Z) : ascii := digit_char (Z.to_N z).

Definition year_text (y : Z) : string :=
  String (digit_of (y / 1000))
    (String (digit_of (y / 100 mod 10))
       (String (digit_of (y / 10 mod 10))
          (String (digit_of (y mod 10)) EmptyString))).

Definition month_text (m : Z) : string :=
  String (digit_of ((m + 1) / 10))
    (String (digit_of ((m + 1) mod 10)) EmptyString).

Definition year_month_text (y m : Z) : string :=
  (year_text y ++ "-" ++ month_text m)%string.

(** Year and month of a record in the host's calendar. *)
Definition year_of (host : DateHost) (rec : Dashboard.ActivityRecord) : Z :=
  getFullYear host (Dashboard.date (Dashboard.row rec)).

Definition month_of (host : DateHost) (rec : Dashboard.ActivityRecord) : Z :=
  getMonth host (Dashboard.date (Dashboard.row rec)).

(** The record's year has four digits and its month index is one of a
    calendar. *)
Definition four_digit_year (host : DateHost) (rec : Dashboard.ActivityRecord)
  : bool :=
  ((1000 <=? year_of host rec) && (year_of host rec <=? 9999)
   && (0 <=? month_of host rec) && (month_of host rec <=? 11))%Z.

(** The stored item cannot be read as a history: it is absent, or its
    text does not parse. *)
Definition unreadable (host : JSONHost) (item : option string) : Prop :=
  match item with
  | Some s => JSON_parse host s = None
  | None => True
  end.

(** No calculation has left a result on the page. *)
Definition no_result (p : Script.Page) : Prop :=
  match Script.dataset_result p with
  | Some data => data = EmptyString
  | None => True
  end.

Definition with_alert (msg : string) (p : Script.Page) : Script.Page :=
  {| Script.carbonHistory := Script.carbonHistory p;
     Script.dataset_result := Script.dataset_result p;
     Script.alerts := Script.alerts p ++ [msg];
     Script.historyContainer := Script.historyContainer p |}.

Definition with_view (v : Script.HistoryView) (p : Script.Page) : Script.Page :=
  {| Script.carbonHistory := Script.carbonHistory p;
     Script.dataset_result := Script.dataset_result p;
     Script.alerts := Script.alerts p;
     Script.historyContainer := v |}.

(** ** Sample inputs *)

Module Samples.

Local Open Scope string_scope.

Definition nl : string := String LF EmptyString.

Definition lines (l : list string) : string := String.concat nl l.

Definition rows_of (text : string) : list Dashboard.Row :=
  match Dashboard.parseCSV UTCHost.host text with
  | Ok rows => rows
  | Throw _ => []
  end.

(** Two departments, a comment line, a line with a malformed date and a
    category without emission factor. *)
Definition office_csv : string :=
  lines [ "Date,Department,Category,Unit,Amount";
          "2024-02-10,Ops,waste,kg,12.5";
          "# first quarter";
          "2024-01-05,Ops,electricity,kWh,100";
          "2024-01-06,Sales,transport_car,km,50";
          "05-01-2024x,Sales,electricity,kWh,999";
          "2024-01-20,Sales,water,m3,30" ].

Definition office_rows : list Dashboard.Row := rows_of office_csv.

(** The two rows of the specification's example. *)
Definition two_rows : list Dashboard.Row :=
  rows_of (lines [ "Date,Department,Category,Unit,Amount";
                   "2024-01-05,Ops,electricity,kWh,100";
                   "2024-01-06,Ops,transport_car,km,50" ]).



(** Only a category without emission factor. *)
Definition water_csv : string :=
  lines [ "Date,Department,Category,Unit,Amount";
          "2024-01-20,Ops,water,m3,30" ].

Definition water_rows : list Dashboard.Row := rows_of water_csv.



(** A text that starts with a comment line. *)
Definition commented_csv : string :=
  lines [ "# exported,Date,Category,Amount";
          "2024-01-05,2024-01-06,waste,7";
          "# a comment among the data";
          "2024-01-07,2024-01-08,waste,3" ].

(** Pages of the calculator: a fresh one, one whose stored history is
    not JSON, and one after a calculation at time [1700000000000]. *)
Definition fresh_page : Script.Page :=
  {| Script.carbonHistory := None;
     Script.dataset_result := None;
     Script.alerts := [];
     Script.historyContainer := Script.Cleared |}.

Definition corrupt_page : Script.Page :=
  {| Script.carbonHistory := Some "[{oops";
     Script.dataset_result := None;
     Script.alerts := [];
     Script.historyContainer := Script.Cleared |}.

End Samples.

(** A host whose JSON texts are the usual ones, restricted to strings
    whose only escapes are those of the quote, the backslash and the
    slash; numbers are written in positional decimal notation, with at
    most twenty fractional digits. *)

Module TextHost.

Local Open Scope string_scope.

Definition quote : ascii := ascii_of_N 34.

Definition backslash : ascii := ascii_of_N 92.

Definition is_json_ws (c : ascii) : bool :=
  let n := code c in ((n =? 32) || (n =? 9) || (n =? 10) || (n =? 13))%N.

Fixpoint skip_ws (s : string) : string :=
  match s with
  | String c s' => if is_json_ws c then skip_ws s' else s
  | EmptyString => EmptyString
  end.

(** The characters after an opening quote, up to the closing quote. *)
Fixpoint string_body (s : string) : option (string * string) :=
  match s with
  | String c s' =>
      if Ascii.eqb c quote then Some (EmptyString, s')
      else if Ascii.eqb c backslash then
        match s' with
        | String e s'' =>
            if Ascii.eqb e quote || Ascii.eqb e backslash || Ascii.eqb e "/" then
              match string_body s'' with
              | Some (t, r) => Some (String e t, r)
              | None => None
              end
            else None
        | EmptyString => None
        end
      else if (code c <? 32)%N then None
      else
        match string_body s' with
        | Some (t, r) => Some (String c t, r)
        | None => None
        end
  | EmptyString => None
  end.

Definition canonical_int (d : string) : bool :=
  match d with
  | String c r => negb (Ascii.eqb c "0") || negb (nonempty r)
  | EmptyString => false
  end.

Definition number (s : string) : option (num * string) :=
  let (negative, s1) :=
    match s with
    | String c s' => if Ascii.eqb c "-" then (true, s') else (false, s)
    | EmptyString => (false, s)
    end in
  let (ip, r1) := take_digits s1 in
  if canonical_int ip then
    let frac :=
      match r1 with
      | String c r =>
          if Ascii.eqb c "." then
            match take_digits r with
            | (EmptyString, _) => None
            | (fp, r2) => Some (fp, r2)
            end
          else Some (EmptyString, r1)
      | EmptyString => Some (EmptyString, r1)
      end in
    match frac with
    | Some (fp, r2) =>
        let expo :=
          match r2 with
          | String c r =>
              if Ascii.eqb c "e" || Ascii.eqb c "E" then
                let (eneg, r') := strip_sign r in
                match take_digits r' with
                | (EmptyString, _) => None
                | (ed, r3) =>
                    let v := Z.of_N (digits_value 0 ed) in
                    Some ((if eneg then - v else v)%Z, r3)
                end
              else Some (0%Z, r2)
          | EmptyString => Some (0%Z, r2)
          end in
        match expo with
        | Some (e, r3) =>
            let mant := Z.of_N (digits_value 0 (ip ++ fp)) in
            let q := (Q2Qc (inject_Z mant)
                      * pow10 (e - Z.of_nat (String.length fp)))%Qc in
            Some (signed negative (Fin q), r3)
        | None => None
        end
    | None => None
    end
  else None.

Definition literal (word : string) (v : json) (s : string)
  : option (json * string) :=
  if startsWith s word
  then Some (v, substring (String.length word) (String.length s) s)
  else None.

Fixpoint value (fuel : nat) (s : string) : option (json * string) :=
  match fuel with
  | O => None
  | S f =>
      match skip_ws s with
      | String c r =>
          if Ascii.eqb c "[" then
            match skip_ws r with
            | String d r' =>
                if Ascii.eqb d "]" then Some (JArray [], r')
                else
                  match elements f (String d r') with
                  | Some (l, r'') => Some (JArray l, r'')
                  | None => None
                  end
            | EmptyString => None
            end
          else if Ascii.eqb c "{" then
            match skip_ws r with
            | String d r' =>
                if Ascii.eqb d "}" then Some (JObject [], r')
                else
                  match members f (String d r') with
                  | Some (o, r'') =>
                      Some (JObject (fold_left (fun t kv => set (fst kv) (snd kv) t)
                                       o []), r'')
                  | None => None
                  end
            | EmptyString => None
            end
          else if Ascii.eqb c quote then
            match string_body r with
            | Some (t, r') => Some (JString t, r')
            | None => None
            end
          else if Ascii.eqb c "n" then literal "null" JNull (String c r)
          else if Ascii.eqb c "t" then literal "true" (JBool true) (String c r)
          else if Ascii.eqb c "f" then literal "false" (JBool false) (String c r)
          else
            match number (String c r) with
            | Some (x, r') => Some (JNumber x, r')
            | None => None
            end
      | EmptyString => None
      end
  end

with elements (fuel : nat) (s : string) : option (list json * string) :=
  match fuel with
  | O => None
  | S f =>
      match value f s with
      | Some (v, r) =>
          match skip_ws r with
          | String c r' =>
              if Ascii.eqb c "," then
                match elements f r' with
                | Some (l, r'') => Some (v :: l, r'')
                | None => None
                end
              else if Ascii.eqb c "]" then Some ([v], r')
              else None
          | EmptyString => None
          end
      | None => None
      end
  end

with members (fuel : nat) (s : string)
  : option (list (string * json) * string) :=
  match fuel with
  | O => None
  | S f =>
      match skip_ws s with
      | String q r =>
          if Ascii.eqb q quote then
            match string_body r with
            | Some (k, r1) =>
                match skip_ws r1 with
                | String c r2 =>
                    if Ascii.eqb c ":" then
                      match value f r2 with
                      | Some (v, r3) =>
                          match skip_ws r3 with
                          | String d r4 =>
                              if Ascii.eqb d "," then
                                match members f r4 with
                                | Some (o, r5) => Some ((k, v) :: o, r5)
                                | None => None
                                end
                              else if Ascii.eqb d "}" then Some ([(k, v)], r4)
                              else None
                          | EmptyString => None
                          end
                      | None => None
                      end
                    else None
                | EmptyString => None
                end
            | None => None
            end
          else None
      | EmptyString => None
      end
  end.

Definition parse (s : string) : option json :=
  match value (2 * String.length s + 2) s with
  | Some (v, r) =>
      match skip_ws r with
      | EmptyString => Some v
      | _ => None
      end
  | None => None
  end.

Fixpoint fraction (fuel : nat) (r d : Z) : string :=
  match fuel with
  | O => EmptyString
  | S f =>
      if (r =? 0)%Z then EmptyString
      else String (digit_char (Z.to_N (10 * r / d)))
             (fraction f ((10 * r) mod d) d)
  end.

Definition number_text (x : num) : string :=
  match x with
  | Fin q =>
      let n := Qnum (this q) in
      let d := Zpos (Qden (this q)) in
      let a := Z.abs n in
      let body :=
        Z_to_string (a / d)
        ++ (if (a mod d =? 0)%Z then "" else "." ++ fraction 20 (a mod d) d) in
      if (n <? 0)%Z then "-" ++ body else body
  | _ => "null"
  end.

Fixpoint quoted (s : string) : string :=
  match s with
  | String c s' =>
      if Ascii.eqb c quote || Ascii.eqb c backslash
      then String backslash (String c (quoted s'))
      else String c (quoted s')
  | EmptyString => String quote EmptyString
  end.

Fixpoint stringify (v : json) : string :=
  match v with
  | JNull => "null"
  | JBool b => if b then "true" else "false"
  | JNumber x => number_text x
  | JString s => String quote (quoted s)
  | JArray l =>
      "[" ++ (fix items (l : list json) : string :=
                match l with
                | [] => ""
                | [v] => stringify v
                | v :: l' => stringify v ++ "," ++ items l'
                end) l ++ "]"
  | JObject o =>
      "{" ++ (fix fields (o : list (string * json)) : string :=
                match o with
                | [] => ""
                | [(k, v)] => String quote (quoted k) ++ ":" ++ stringify v
                | (k, v) :: o' =>
                    String quote (quoted k) ++ ":" ++ stringify v ++ ","
                    ++ fields o'
                end) o ++ "}"
  end.

Definition host : JSONHost :=
  {| JSON_parse := parse; JSON_stringify := stringify |}.

End TextHost.

Module CalculatorSamples.

Local Open Scope string_scope.

Definition after (m : Script.M Script.Emissions) (p : Script.Page) : Script.Page :=
  snd (m p).

Definition calculated_page : Script.Page :=
  after (Script.calculateEmissions TextHost.host "100" "car" "50" "1"
           1700000000000) Samples.fresh_page.

Definition saved_page : Script.Page :=
  snd (Script.saveResult TextHost.host calculated_page).

(** A second calculation on the page whose history holds the first. *)
Definition recalculated_page : Script.Page :=
  after (Script.calculateEmissions TextHost.host "100" "train" "0" "2"
           1700000500000) saved_page.

Definition entries_of (p : Script.Page) : list json :=
  match Script.stored_history TextHost.host (Script.carbonHistory p) with
  | JArray l => l
  | _ => []
  end.

Definition result_of (p : Script.Page) : string :=
  match Script.dataset_result p with
  | Some data => data
  | None => ""
  end.

Definition entry_of_result (p : Script.Page) : json :=
  match JSON_parse TextHost.host (result_of p) with
  | Some v => v
  | None => JNull
  end.

End CalculatorSamples.

(** ** Charts and labels of the dashboard (service-worker.js) *)

Module Charts.

Local Open Scope string_scope.

(** [Math.max(...l)]: minus infinity for no argument, NaN as soon as an
    argument is NaN. *)
Definition max2 (highest x : num) : num :=
  match highest, x with
  | NaN, _ | _, NaN => NaN
  | _, _ => if gt0 (sub x highest) then x else highest
  end.

Definition Math_max (l : list num) : num := fold_left max2 l NInf.

(** [s.replace(pat, '')] for a non-empty text [pat]: the first
    occurrence is removed. *)
Fixpoint drop (n : nat) (s : string) : string :=
  match n, s with
  | S n', String _ s' => drop n' s'
  | _, _ => s
  end.

Fixpoint remove_first (pat s : string) : string :=
  if String.prefix pat s then drop (String.length pat) s
  else
    match s with
    | String c s' => String c (remove_first pat s')
    | EmptyString => EmptyString
    end.

(** [s.replace(/_/g, ' ')] *)
Fixpoint spaces_for_underscores (s : string) : string :=
  match s with
  | String c s' =>
      String (if Ascii.eqb c "_" then " "%char else c) (spaces_for_underscores s')
  | EmptyString => EmptyString
  end.

(** The class [\w]: ASCII letters, digits and the underscore. *)
Definition is_word (c : ascii) : bool :=
  let n := code c in
  ((48 <=? n) && (n <=? 57) || (65 <=? n) && (n <=? 90)
   || (97 <=? n) && (n <=? 122) || (n =? 95))%N.

Definition upper_char (c : ascii) : ascii :=
  let n := code c in
  if ((97 <=? n) && (n <=? 122))%N then ascii_of_N (n - 32) else c.

(** [s.replace(/\b\w/g, l => l.toUpperCase())]: a word character is put
    in upper case when no word character precedes it. *)
Fixpoint capitalize (after_word : bool) (s : string) : string :=
  match s with
  | String c s' =>
      String (if is_word c && negb after_word then upper_char c else c)
        (capitalize (is_word c) s')
  | EmptyString => EmptyString
  end.

Definition humanReadableCategory (key : string) : string :=
  capitalize false (spaces_for_underscores (remove_first "transport_" key)).




(** *** drawLineChart *)

Definition margin : num := of_Z 40.

Definition steps : Z := 5.

(** [n || 1] *)
Definition or1 (n : num) : num := if truthy n then n else of_Z 1.

Definition of_nat (n : nat) : num := of_Z (Z.of_nat n).

(** What is drawn: the six grid lines, each with the height [y] of the
    line and the value written beside it, and the plotted points [(x, y)]
    in the order of the values. *)
Record LineChart : Type := {
  grid : list (num * num);
  points : list (num * num)
}.

Fixpoint plot (chartWidth chartHeight maxVal : num) (count : nat) (idx : nat)
  (values : list num) : list (num * num) :=
  match values with
  | val :: values' =>
      (add margin (div (mul chartWidth (of_nat idx))
                       (or1 (sub (of_nat count) (of_Z 1)))),
       add margin (mul chartHeight (sub (of_Z 1) (div val maxVal))))
      :: plot chartWidth chartHeight maxVal count (S idx) values'
  | [] => []
  end.

(** [None] when there is no label: the canvas is only cleared. *)
Definition drawLineChart (width height : num) (labels : list string)
  (values : list num) : option LineChart :=
  match labels with
  | [] => None
  | _ =>
      let chartWidth := sub width (mul margin (of_Z 2)) in
      let chartHeight := sub height (mul margin (of_Z 2)) in
      let maxVal := Math_max values in
      Some
        {| grid :=
             map (fun i =>
                    (add margin (div (mul chartHeight (of_Z i)) (of_Z steps)),
                     mul maxVal (sub (of_Z 1) (div (of_Z i) (of_Z steps)))))
                 [0; 1; 2; 3; 4; 5]%Z;
           points := plot chartWidth chartHeight maxVal (List.length labels) 0 values |}
  end.

End Charts.

(** ** Further vocabulary *)

(** The character occurs in the string. *)
Fixpoint contains (c : ascii) (s : string) : bool :=
  match s with
  | String d s' => Ascii.eqb d c || contains c s'
  | EmptyString => false
  end.

(** A data line that the parser turns into a record, or on which it
    throws: it is not skipped and its date is valid. *)
Definition accepted (host : DateHost) (header : list string) (line : string)
  : bool :=
  negb (Dashboard.skipped line)
  && match date_of_line host header line with
     | Some _ => true
     | None => false
     end.

(** The record is dated [d]. *)
Definition on_date (d : Z) (rec : Dashboard.ActivityRecord) : bool :=
  Z.eqb (Dashboard.date (Dashboard.row rec)) d.



(** The table row shown for an entry made by [calculateEmissions]. *)
Definition row_of (now : Z) (e : Script.Emissions)
  : option json * num * num * num * num :=
  (Some (JNumber (of_Z now)), Script.totalEmission e,
   Script.transportEmission e, Script.electricityEmission e,
   Script.meatEmission e).

Definition with_storage (item : option string) (p : Script.Page) : Script.Page :=
  {| Script.carbonHistory := item;
     Script.dataset_result := Script.dataset_result p;
     Script.alerts := Script.alerts p;
     Script.historyContainer := Script.historyContainer p |}.

(** No character of the text is an underscore. *)
Fixpoint no_underscore (s : string) : bool :=
  match s with
  | String c s' => negb (Ascii.eqb c "_") && no_underscore s'
  | EmptyString => true
  end.

Definition is_lower (c : ascii) : bool :=
  let n := code c in ((97 <=? n) && (n <=? 122))%N.

(** No word of the text starts with a lower-case letter; [after_word]
    says that a word character precedes the text. *)
Fixpoint words_capitalised (after_word : bool) (s : string) : bool :=
  match s with
  | String c s' =>
      (after_word || negb (is_lower c))
      && words_capitalised (Charts.is_word c) s'
  | EmptyString => true
  end.

(** Further sample inputs. *)
Module MoreSamples.

Local Open Scope string_scope.

(** Categories written in upper and mixed case. *)
Definition upper_csv : string :=
  Samples.lines [ "Date,Department,Category,Unit,Amount";
                  "2024-01-05,Ops,ELECTRICITY,kWh,100";
                  "2024-01-06,Ops,Transport_Car,km,50" ].

Definition upper_rows : list Dashboard.Row := Samples.rows_of upper_csv.

Definition parsed (host : DateHost) (header lines : list string)
  : list Dashboard.Row :=
  match Dashboard.parse_lines host header lines [] with
  | Ok rows => rows
  | Throw _ => []
  end.

(** A page with a pending result whose stored item is the JSON text of a
    number, and one whose pending result is not JSON. *)
Definition number_stored_page : Script.Page :=
  with_storage (Some "7") CalculatorSamples.calculated_page.

Definition bad_result_page : Script.Page :=
  {| Script.carbonHistory := None;
     Script.dataset_result := Some "{total:";
     Script.alerts := [];
     Script.historyContainer := Script.Cleared |}.

(** The two calculations of the calculator samples. *)
Definition two_calculations : list (Z * Script.Emissions) :=
  [ (1700000000000%Z, Script.emissions "100" "car" "50" "1");
    (1700000500000%Z, Script.emissions "100" "train" "0" "2") ].

Definition two_saved_page : Script.Page :=
  snd (Script.saveResult TextHost.host CalculatorSamples.recalculated_page).

End MoreSamples.

(** * Properties *)

Unset Implicit Arguments.

(** ** Numbers *)

Section NumberFacts.

Local Open Scope Qc_scope.

Lemma zero_Fin : zero = Fin 0.
Proof. reflexivity. Qed.

Lemma finite_Fin (q : Qc) : finite (Fin q).
Proof. reflexivity. Qed.

Lemma finite_inv (x : num) : finite x -> x = Fin (qval x).
Proof. destruct x; unfold finite; simpl; congruence. Qed.

Lemma truthy_Fin_false (q : Qc) : truthy (Fin q) = false -> q = 0.
Proof. simpl. destruct (Qc_eq_dec q 0); congruence. Qed.

Lemma or0_Fin (q : Qc) : or0 (Some (Fin q)) = Fin q.
Proof.
  unfold or0. destruct (truthy (Fin q)) eqn:E; [reflexivity|].
  apply truthy_Fin_false in E. subst q. reflexivity.
Qed.

Lemma add_zero_l (q : Qc) : add zero (Fin q) = Fin q.
Proof. rewrite zero_Fin. simpl. f_equal. ring. Qed.





Lemma qsum_app (l1 l2 : list num) : qsum (l1 ++ l2) = qsum l1 + qsum l2.
Proof. induction l1 as [|x l1 IH]; simpl; [ring | rewrite IH; ring]. Qed.


End NumberFacts.

(** ** Objects and sorting *)

Section ObjectFacts.

Variable A : Type.
Implicit Types (o : obj A) (k : string) (v : A).




Lemma get_In k v o : get k o = Some v -> In (k, v) o.
Proof.
  induction o as [|[k0 v0] o IH]; simpl; [discriminate|].
  destruct (String.eqb k0 k) eqn:E.
  - apply String.eqb_eq in E. intros [= ->]. left. now subst.
  - intros H. right. now apply IH.
Qed.

Lemma get_None_keys k o : get k o = None <-> ~ In k (map fst o).
Proof.
  induction o as [|[k0 v0] o IH]; simpl; [tauto|].
  destruct (String.eqb k0 k) eqn:E.
  - apply String.eqb_eq in E. split; [discriminate | intros H; exfalso; auto].
  - apply String.eqb_neq in E. rewrite IH. tauto.
Qed.

Lemma keys_set_present k v o :
  get k o <> None -> map fst (set k v o) = map fst o.
Proof.
  induction o as [|[k0 v0] o IH]; simpl; [congruence|].
  destruct (String.eqb k0 k) eqn:E; simpl.
  - apply String.eqb_eq in E. now subst.
  - intros H. now rewrite IH.
Qed.

Lemma keys_set_absent k v o :
  get k o = None -> map fst (set k v o) = map fst o ++ [k].
Proof.
  induction o as [|[k0 v0] o IH]; simpl; [reflexivity|].
  destruct (String.eqb k0 k) eqn:E; [discriminate|].
  intros H. simpl. now rewrite IH.
Qed.

Lemma existsb_keys k o :
  existsb (String.eqb k) (map fst o)
  = match get k o with Some _ => true | None => false end.
Proof.
  induction o as [|[k0 v0] o IH]; simpl; [reflexivity|].
  rewrite String.eqb_sym. destruct (String.eqb k0 k); simpl; auto.
Qed.

Lemma insert_index_perm (e : N * (string * A)) l :
  Permutation (insert_index e l) (e :: l).
Proof.
  induction l as [|e' l IH]; simpl; [reflexivity|].
  destruct (fst e' <? fst e)%N; [|reflexivity].
  rewrite IH. apply perm_swap.
Qed.

Lemma Object_entries_perm o : Permutation (Object_entries o) o.
Proof.
  unfold Object_entries.
  induction o as [|kv o IH]; simpl; [reflexivity|].
  unfold is_named at 1. destruct (array_index (fst kv)) as [n|].
  - rewrite (Permutation_map snd (insert_index_perm (n, kv) _)). simpl.
    now apply perm_skip.
  - rewrite <- Permutation_middle. now apply perm_skip.
Qed.

(** Without array-index keys the enumeration order is the creation
    order. *)
Lemma Object_entries_named o :
  Forall (fun kv => array_index (fst kv) = None) o -> Object_entries o = o.
Proof.
  intros H. unfold Object_entries.
  assert (Hi : index_props o = []).
  { induction H as [|kv o Hkv Ho IH]; simpl; [reflexivity|]. now rewrite Hkv. }
  rewrite Hi. simpl.
  induction H as [|kv o Hkv Ho IH]; simpl; [reflexivity|].
  unfold is_named at 1. rewrite Hkv. f_equal. apply IH.
  simpl in Hi. now rewrite Hkv in Hi.
Qed.

Variable comparefn : A -> A -> num.

Lemma sort_insert_perm (x : A) (l : list A) :
  Permutation (sort_insert comparefn x l) (x :: l).
Proof.
  induction l as [|y l IH]; simpl; [reflexivity|].
  destruct (gt0 (comparefn x y)); [|reflexivity].
  rewrite IH. apply perm_swap.
Qed.

Lemma sort_perm (l : list A) : Permutation (sort comparefn l) l.
Proof.
  induction l as [|x l IH]; simpl; [reflexivity|].
  rewrite sort_insert_perm. now apply perm_skip.
Qed.

End ObjectFacts.

Section SortFacts.

Variable A : Type.
Variable comparefn : A -> A -> num.

(** Stability: elements that the comparator never orders keep their
    relative order. *)
Lemma filter_sort_insert (p : A -> bool) (x : A) (l : list A) :
  (forall y, In y l -> p x = true -> p y = true -> gt0 (comparefn x y) = false) ->
  filter p (sort_insert comparefn x l) = filter p (x :: l).
Proof.
  induction l as [|y l IH]; intros H; simpl; [reflexivity|].
  destruct (gt0 (comparefn x y)) eqn:E; [|reflexivity].
  simpl. rewrite IH by (intros; apply H; simpl; auto). simpl.
  destruct (p x) eqn:Px, (p y) eqn:Py; try reflexivity.
  rewrite (H y) in E by (simpl; auto). discriminate.
Qed.

Lemma sort_stable (p : A -> bool) (l : list A) :
  (forall x y, p x = true -> p y = true -> gt0 (comparefn x y) = false) ->
  filter p (sort comparefn l) = filter p l.
Proof.
  intros H. induction l as [|x l IH]; simpl; [reflexivity|].
  rewrite filter_sort_insert by (intros; now apply H).
  simpl. now rewrite IH.
Qed.

(** Sortedness, for a comparator that agrees with a transitive order [R]
    on the elements that satisfy [P]. *)
Variable P : A -> Prop.
Variable R : A -> A -> Prop.
Hypothesis R_trans : forall x y z, R x y -> R y z -> R x z.
Hypothesis before : forall x y, P x -> P y -> gt0 (comparefn x y) = false -> R x y.
Hypothesis behind : forall x y, P x -> P y -> gt0 (comparefn x y) = true -> R y x.

Lemma sort_insert_sorted (x : A) (l : list A) :
  P x -> Forall P l -> StronglySorted R l ->
  StronglySorted R (sort_insert comparefn x l).
Proof.
  intros Px Pl Hs. induction Hs as [|y l Hs IH Hy]; simpl.
  - constructor; constructor.
  - inversion Pl as [|? ? Py Pl']; subst.
    destruct (gt0 (comparefn x y)) eqn:E.
    + constructor; [now apply IH|].
      apply (Permutation_Forall (Permutation_sym (sort_insert_perm A comparefn x l))).
      constructor; [now apply behind | exact Hy].
    + assert (Rxy : R x y) by now apply before.
      constructor; [now constructor|].
      constructor; [exact Rxy|].
      eapply Forall_impl; [|exact Hy]. intros z Hz. now apply (R_trans x y z).
Qed.

Lemma sort_sorted (l : list A) :
  Forall P l -> StronglySorted R (sort comparefn l).
Proof.
  induction 1 as [|x l Px Pl IH]; simpl; [constructor|].
  apply sort_insert_sorted; auto.
  apply (Permutation_Forall (Permutation_sym (sort_perm A comparefn l))). exact Pl.
Qed.

End SortFacts.

(** ** Totals *)

Section TotalsFacts.

Local Open Scope Qc_scope.


Lemma qsum_set_present k v w (o : obj num) :
  get k o = Some v -> qsum (vals (set k w o)) = qsum (vals o) - qval v + qval w.
Proof.
  unfold vals. induction o as [|[k0 v0] o IH]; simpl; [discriminate|].
  destruct (String.eqb k0 k) eqn:E; simpl.
  - intros [= ->]. ring.
  - intros H. rewrite (IH H). ring.
Qed.

Lemma qsum_set_absent k w (o : obj num) :
  get k o = None -> qsum (vals (set k w o)) = qsum (vals o) + qval w.
Proof.
  unfold vals. induction o as [|[k0 v0] o IH]; simpl; [intros _; ring|].
  destruct (String.eqb k0 k) eqn:E; simpl; [discriminate|].
  intros H. rewrite (IH H). ring.
Qed.

Lemma finite_set k w (o : obj num) :
  Forall finite (vals o) -> finite w -> Forall finite (vals (set k w o)).
Proof.
  unfold vals. intros Ho Hw. induction o as [|[k0 v0] o IH]; simpl.
  - now constructor.
  - inversion Ho as [|? ? H0 Ho']; subst.
    destruct (String.eqb k0 k); simpl; constructor; auto.
Qed.

Lemma finite_get k v (o : obj num) :
  Forall finite (vals o) -> get k o = Some v -> finite v.
Proof.
  intros Ho G. apply get_In in G.
  unfold vals in Ho. rewrite Forall_forall in Ho. apply Ho.
  change v with (snd (k, v)). now apply in_map.
Qed.

Lemma bump_finite k (q : Qc) (o : obj num) :
  Forall finite (vals o) ->
  Forall finite (vals (Dashboard.bump k (Fin q) o))
  /\ qsum (vals (Dashboard.bump k (Fin q) o)) = qsum (vals o) + q.
Proof.
  intros Ho. unfold Dashboard.bump.
  destruct (get k o) as [v|] eqn:G.
  - pose proof (finite_get k v o Ho G) as Hv. rewrite (finite_inv _ Hv).
    rewrite or0_Fin. simpl add. split.
    + apply finite_set; [exact Ho | apply finite_Fin].
    + rewrite (qsum_set_present k v _ o G). simpl. ring.
  - simpl or0. rewrite add_zero_l. split.
    + apply finite_set; [exact Ho | apply finite_Fin].
    + rewrite (qsum_set_absent k _ o G). reflexivity.
Qed.

Section ByKey.
Variable key : Dashboard.ActivityRecord -> string.

Lemma fold_bump_finite (data : list Dashboard.ActivityRecord) (o : obj num) :
  Forall finite (emissions_of data) -> Forall finite (vals o) ->
  let o' := fold_left (fun t rec => Dashboard.bump (key rec) (Dashboard.emission rec) t) data o in
  Forall finite (vals o') /\ qsum (vals o') = qsum (vals o) + qsum (emissions_of data).
Proof.
  revert o. induction data as [|rec data IH]; intros o Hd Ho; simpl.
  - split; [exact Ho | ring].
  - inversion Hd as [|? ? He Hd']; subst.
    rewrite (finite_inv _ He).
    destruct (bump_finite (key rec) (qval (Dashboard.emission rec)) o Ho) as [F S].
    destruct (IH _ Hd' F) as [F' S']. split; [exact F'|].
    rewrite S', S. simpl. ring.
Qed.

Lemma totals_by_finite (data : list Dashboard.ActivityRecord) :
  Forall finite (emissions_of data) ->
  Forall finite (vals (Dashboard.totals_by key data))
  /\ qsum (vals (Dashboard.totals_by key data)) = qsum (emissions_of data).
Proof.
  intros Hd. unfold Dashboard.totals_by.
  destruct (fold_bump_finite data empty Hd) as [F S]; [constructor|].
  split; [exact F|]. rewrite S. simpl. ring.
Qed.



End ByKey.


End TotalsFacts.

(** ** The three totals *)

Section Totals.

Local Open Scope Qc_scope.

Lemma or0_get_finite (k : string) (o : obj num) :
  Forall finite (vals o) -> finite (or0 (get k o)).
Proof.
  intros Ho. destruct (get k o) as [v|] eqn:G; [|reflexivity].
  rewrite (finite_inv _ (finite_get k v o Ho G)), or0_Fin. reflexivity.
Qed.

Lemma factors_finite : Forall finite (vals Dashboard.EMISSION_FACTORS).
Proof. repeat constructor. Qed.

Lemma mul_finite (x y : num) : finite x -> finite y -> finite (mul x y).
Proof.
  intros Hx Hy. rewrite (finite_inv _ Hx), (finite_inv _ Hy). reflexivity.
Qed.

Lemma with_emission_finite (r : Dashboard.Row) :
  finite (Dashboard.amount r) ->
  finite (Dashboard.emission (Dashboard.with_emission r)).
Proof.
  intros H. simpl. apply mul_finite; [|exact H].
  apply or0_get_finite, factors_finite.
Qed.

Lemma computed_perm (rows : list Dashboard.Row) :
  Permutation (Dashboard.computed rows) (map Dashboard.with_emission rows).
Proof. apply sort_perm. Qed.

Lemma computed_finite (rows : list Dashboard.Row) :
  Forall (fun r => finite (Dashboard.amount r)) rows ->
  Forall finite (emissions_of (Dashboard.computed rows)).
Proof.
  intros H. unfold emissions_of.
  apply (Permutation_Forall
           (Permutation_sym (Permutation_map _ (computed_perm rows)))).
  rewrite map_map. apply Forall_map.
  eapply Forall_impl; [|exact H]. intros r. apply with_emission_finite.
Qed.





End Totals.

(** ** Ranking of departments and categories *)

Section Ranking.

Local Open Scope Qc_scope.

Lemma gt0_sub_Fin (a b : Qc) : gt0 (sub (Fin b) (Fin a)) = true <-> a < b.
Proof.
  unfold gt0, sub. simpl. rewrite Qclt_minus_iff.
  destruct (Qccompare (b + - a) 0) eqn:E; split; intros H; try discriminate;
    try reflexivity.
  - apply Qceq_alt in E. rewrite E in H. exfalso. exact (Qclt_not_eq _ _ H eq_refl).
  - apply Qclt_alt in E. exfalso. exact (Qclt_not_le _ _ E (Qclt_le_weak _ _ H)).
  - now apply Qcgt_alt in E.
Qed.



(** Keys enter a totals object in the order of their first occurrence. *)
Lemma fold_bump_keys (key : Dashboard.ActivityRecord -> string)
  (data : list Dashboard.ActivityRecord) (o : obj num) :
  map fst (fold_left (fun t rec => Dashboard.bump (key rec) (Dashboard.emission rec) t) data o)
  = map fst o ++ first_occurrences (map fst o) (map key data).
Proof.
  revert o. induction data as [|rec data IH]; intros o; simpl.
  - now rewrite app_nil_r.
  - rewrite IH, existsb_keys. unfold Dashboard.bump.
    destruct (get (key rec) o) as [v|] eqn:G.
    + rewrite keys_set_present by congruence. reflexivity.
    + rewrite keys_set_absent by exact G. now rewrite <- app_assoc.
Qed.

Lemma totals_by_keys (key : Dashboard.ActivityRecord -> string)
  (data : list Dashboard.ActivityRecord) :
  map fst (Dashboard.totals_by key data) = first_occurrences [] (map key data).
Proof. unfold Dashboard.totals_by. now rewrite fold_bump_keys. Qed.

Lemma entries_finite (o : obj num) :
  Forall finite (vals o) -> Forall finite (map snd (Object_entries o)).
Proof.
  intros H.
  apply (Permutation_Forall
           (Permutation_sym (Permutation_map snd (Object_entries_perm num o)))).
  exact H.
Qed.




End Ranking.

(** ** Shares of a zero total *)

Section Shares.

Local Open Scope Qc_scope.

Lemma eqb_zero (x : num) : JSNumber.eqb x zero = true -> x = Fin 0.
Proof.
  destruct x; simpl; try discriminate.
  destruct (Qc_eq_dec q (Q2Qc (inject_Z 0))); [|discriminate].
  intros _. now subst.
Qed.

Lemma share_zero_total (q : Qc) :
  Dashboard.share (Fin q) (Fin 0) = share_of_zero_total (Fin q).
Proof.
  unfold Dashboard.share, share_of_zero_total, div. simpl qval.
  destruct (Qc_eq_dec 0 0) as [_|N]; [|congruence].
  destruct (Qccompare q 0); reflexivity.
Qed.

(** C3 (as the program does it). The share is the plain quotient
    [(val / total) * 100]: when the total is zero no share is a finite
    number; it is NaN for a category whose own total is zero and
    +Infinity or -Infinity for the others. *)
Theorem share_is_unguarded (rows : list Dashboard.Row) :
  Forall (fun r => finite (Dashboard.amount r)) rows ->
  let data := Dashboard.computed rows in
  JSNumber.eqb (Dashboard.analysis_total data) zero = true ->
  map Dashboard.cue_share (Dashboard.renderAnalysis data)
  = map (fun e => share_of_zero_total (snd e)) (Dashboard.analysis_sorted data)
  /\ Forall (fun c => isFinite (Dashboard.cue_share c) = false)
       (Dashboard.renderAnalysis data).
Proof.
  intros H data Hz.
  pose proof (computed_finite rows H) as Hd. fold data in Hd.
  destruct (totals_by_finite Dashboard.cat_key data Hd) as [Fc _].
  assert (Fs : Forall finite (map snd (Dashboard.analysis_sorted data))).
  { unfold Dashboard.analysis_sorted.
    apply (Permutation_Forall
             (Permutation_sym (Permutation_map snd (sort_perm _ _ _)))).
    now apply entries_finite. }
  unfold Dashboard.renderAnalysis. rewrite (eqb_zero _ Hz).
  induction (Dashboard.analysis_sorted data) as [|[k v] l IH]; simpl.
  - split; constructor.
  - inversion Fs as [|? ? Fv Fl]; subst. destruct (IH Fl) as [E F].
    simpl in Fv. rewrite (finite_inv _ Fv), share_zero_total.
    split.
    + now rewrite E.
    + constructor; [|exact F]. simpl.
      unfold share_of_zero_total. now destruct (Qccompare _ 0).
Qed.

Lemma share_is_unguarded_witness :
  let data := Dashboard.computed Samples.water_rows in
  map Dashboard.cue_share (Dashboard.renderAnalysis data)
  = map (fun e => share_of_zero_total (snd e)) (Dashboard.analysis_sorted data)
  /\ Forall (fun c => isFinite (Dashboard.cue_share c) = false)
       (Dashboard.renderAnalysis data).
Proof.
  apply (share_is_unguarded Samples.water_rows).
  - vm_compute. repeat constructor.
  - vm_compute. reflexivity.
Defined.

(** C3 (as stated) fails: for a dataset whose only category has no
    emission factor the total is 0 and the share shown is the NaN of
    [0 / 0], where a guard would give 0. *)
Lemma share_not_guarded :
  let data := Dashboard.computed Samples.water_rows in
  show (Dashboard.analysis_total data) = VQ 0
  /\ map (fun c => (Dashboard.cue_category c, Dashboard.cue_share c))
       (Dashboard.renderAnalysis data) = [("water"%string, NaN)]
  /\ Dashboard.share zero zero = NaN
  /\ guarded_share zero zero = zero
  /\ Dashboard.share zero zero <> guarded_share zero zero.
Proof.
  cbv zeta. split; [|split; [|split; [|split]]]; try (vm_compute; reflexivity).
  vm_compute. discriminate.
Qed.

End Shares.

(** ** The parser *)

Section Parser.

Variable host : DateHost.

Lemma parse_lines_app (header : list string) (l1 l2 : list string)
  (data : list Dashboard.Row) :
  Dashboard.parse_lines host header (l1 ++ l2) data
  = match Dashboard.parse_lines host header l1 data with
    | Ok d => Dashboard.parse_lines host header l2 d
    | Throw e => Throw e
    end.
Proof.
  revert data. induction l1 as [|line l1 IH]; intros data; simpl; [reflexivity|].
  destruct (Dashboard.skipped line); [apply IH|].
  destruct (Dashboard.new_Date host _); [|apply IH].
  destruct (get "category" _); [apply IH | reflexivity].
Qed.

Lemma parse_lines_invalid_date (header : list string) (bad : string)
  (rest : list string) (data : list Dashboard.Row) :
  date_of_line host header bad = None ->
  Dashboard.parse_lines host header (bad :: rest) data
  = Dashboard.parse_lines host header rest data.
Proof.
  unfold date_of_line. intros H. simpl.
  destruct (Dashboard.skipped bad); [reflexivity|]. now rewrite H.
Qed.

Lemma parse_lines_drop (header : list string) (pre post : list string)
  (bad : string) (data : list Dashboard.Row) :
  date_of_line host header bad = None ->
  Dashboard.parse_lines host header (pre ++ bad :: post) data
  = Dashboard.parse_lines host header (pre ++ post) data.
Proof.
  intros H. rewrite !parse_lines_app.
  destruct (Dashboard.parse_lines host header pre data); [|reflexivity].
  now apply parse_lines_invalid_date.
Qed.

(** C4. A data line whose date field does not parse to a valid date is
    dropped without error: it yields no record, and the parse of the text,
    hence everything computed from it (records, total, aggregates), is
    that of the text without the line. *)
Theorem invalid_date_dropped (text header_line bad : string)
  (pre post : list string) :
  split_lines (trim text) = header_line :: pre ++ bad :: post ->
  date_of_line host (Dashboard.header_of header_line) bad = None ->
  Dashboard.parse_lines host (Dashboard.header_of header_line) [bad] [] = Ok []
  /\ Dashboard.parseCSV host text
     = Dashboard.parseCSV_lines host (header_line :: pre ++ post)
  /\ Dashboard.onload host text
     = match Dashboard.parseCSV_lines host (header_line :: pre ++ post) with
       | Ok rows => Ok (Dashboard.processData host rows)
       | Throw e => Throw e
       end.
Proof.
  intros Hl Hd.
  assert (E : Dashboard.parseCSV host text
              = Dashboard.parseCSV_lines host (header_line :: pre ++ post)).
  { unfold Dashboard.parseCSV. rewrite Hl. unfold Dashboard.parseCSV_lines.
    destruct (pre ++ bad :: post) as [|l ls] eqn:E1.
    - now destruct pre.
    - rewrite <- E1, (parse_lines_drop _ _ _ _ _ Hd).
      destruct (pre ++ post); reflexivity. }
  split; [|split].
  - now rewrite (parse_lines_invalid_date _ _ _ _ Hd).
  - exact E.
  - unfold Dashboard.onload. now rewrite E.
Qed.

End Parser.

Lemma invalid_date_dropped_witness :
  Dashboard.parse_lines UTCHost.host
    (Dashboard.header_of "Date,Department,Category,Unit,Amount")
    ["05-01-2024x,Sales,electricity,kWh,999"%string] [] = Ok []
  /\ Dashboard.parseCSV UTCHost.host Samples.office_csv
     = Dashboard.parseCSV_lines UTCHost.host
         ("Date,Department,Category,Unit,Amount"%string
          :: ["2024-02-10,Ops,waste,kg,12.5"; "# first quarter";
              "2024-01-05,Ops,electricity,kWh,100";
              "2024-01-06,Sales,transport_car,km,50"]%string
             ++ ["2024-01-20,Sales,water,m3,30"%string])
  /\ Dashboard.onload UTCHost.host Samples.office_csv
     = match Dashboard.parseCSV_lines UTCHost.host
               ("Date,Department,Category,Unit,Amount"%string
                :: ["2024-02-10,Ops,waste,kg,12.5"; "# first quarter";
                    "2024-01-05,Ops,electricity,kWh,100";
                    "2024-01-06,Sales,transport_car,km,50"]%string
                   ++ ["2024-01-20,Sales,water,m3,30"%string]) with
       | Ok rows => Ok (Dashboard.processData UTCHost.host rows)
       | Throw e => Throw e
       end.
Proof.
  apply (invalid_date_dropped UTCHost.host Samples.office_csv
           "Date,Department,Category,Unit,Amount"
           "05-01-2024x,Sales,electricity,kWh,999").
  - vm_compute. reflexivity.
  - vm_compute. reflexivity.
Defined.

(** ** Buckets *)

Section Buckets.

Local Open Scope Qc_scope.


Variable key : Dashboard.ActivityRecord -> string.




Lemma first_occurrences_In (k : string) (l seen : list string) :
  In k (first_occurrences seen l) <-> In k l /\ ~ In k seen.
Proof.
  revert seen. induction l as [|x l IH]; intros seen; simpl; [tauto|].
  destruct (existsb (String.eqb x) seen) eqn:E.
  - rewrite IH. apply existsb_exists in E. destruct E as [y [Hy Exy]].
    apply String.eqb_eq in Exy. subst y. split; [tauto|].
    intros [[->|H] N]; [contradiction | tauto].
  - assert (Nx : ~ In x seen).
    { intros Hx. apply Bool.not_true_iff_false in E. apply E.
      apply existsb_exists. exists x. split; [exact Hx | apply String.eqb_refl]. }
    simpl. rewrite IH, in_app_iff. simpl. split.
    + intros [->|[H N]]; [tauto|]. tauto.
    + intros [[->|H] N]; [tauto|].
      destruct (String.eqb_spec x k) as [->|Hne]; [tauto|]. right.
      split; [exact H|]. intros [?|[?|[]]]; [tauto | congruence].
Qed.


End Buckets.

Section UnknownCategory.

Local Open Scope Qc_scope.

Variable host : DateHost.




End UnknownCategory.


(** ** The header line *)

Section Header.

Variable host : DateHost.



Lemma build_record_keys (header : list string) (idx : nat)
  (values : list string) (o : obj string) :
  map fst (Dashboard.build_record header idx values o)
  = map fst o ++ first_occurrences (map fst o) header.
Proof.
  revert idx o. induction header as [|key header IH]; intros idx o; simpl.
  - now rewrite app_nil_r.
  - rewrite IH, existsb_keys.
    destruct (get key o) as [v|] eqn:G.
    + rewrite keys_set_present by congruence. reflexivity.
    + rewrite keys_set_absent by exact G. now rewrite <- app_assoc.
Qed.




End Header.


(** The records read from the sample text that starts with a comment
    line: dates, amounts and categories come from the columns that the
    comment line names, and the comment among the data gives none. *)
Example commented_csv_rows :
  map (fun r => (map fst (Dashboard.fields r), Dashboard.date r,
                 show (Dashboard.amount r), Dashboard.category r))
      (Samples.rows_of Samples.commented_csv)
  = [ (["# exported"; "date"; "category"; "amount"]%string,
       1704499200000%Z, VQ 7, "waste"%string);
      (["# exported"; "date"; "category"; "amount"]%string,
       1704672000000%Z, VQ 3, "waste"%string) ].
Proof. vm_compute. reflexivity. Qed.

(** ** Month keys *)

Section MonthKeys.

Local Open Scope Z_scope.

Lemma string_compare_refl (s : string) : String.compare s s = Eq.
Proof.
  induction s as [|a s IH]; simpl; [reflexivity|].
  unfold Ascii.compare. now rewrite N.compare_refl.
Qed.

Lemma ascii_compare_trans (a b c : ascii) :
  Ascii.compare a b = Lt -> Ascii.compare b c = Lt -> Ascii.compare a c = Lt.
Proof.
  unfold Ascii.compare. rewrite !N.compare_lt_iff. apply N.lt_trans.
Qed.

Lemma string_compare_trans (s1 s2 s3 : string) :
  String.compare s1 s2 = Lt -> String.compare s2 s3 = Lt ->
  String.compare s1 s3 = Lt.
Proof.
  revert s2 s3. induction s1 as [|a s1 IH]; intros [|b s2] [|c s3]; simpl;
    try discriminate; try reflexivity.
  destruct (Ascii.compare a b) eqn:Eab; try discriminate;
    destruct (Ascii.compare b c) eqn:Ebc; try discriminate.
  - apply Ascii.compare_eq_iff in Eab, Ebc. subst.
    unfold Ascii.compare. rewrite N.compare_refl. apply IH.
  - apply Ascii.compare_eq_iff in Eab. subst. now rewrite Ebc.
  - apply Ascii.compare_eq_iff in Ebc. subst. now rewrite Eab.
  - now rewrite (ascii_compare_trans a b c).
Qed.

Lemma string_leb_trans (s1 s2 s3 : string) :
  String.leb s1 s2 = true -> String.leb s2 s3 = true -> String.leb s1 s3 = true.
Proof.
  unfold String.leb.
  destruct (String.compare s1 s2) eqn:E12; try discriminate;
    destruct (String.compare s2 s3) eqn:E23; try discriminate; intros _ _.
  - apply String.compare_eq_iff in E12, E23. subst.
    now rewrite string_compare_refl.
  - apply String.compare_eq_iff in E12. subst. now rewrite E23.
  - apply String.compare_eq_iff in E23. subst. now rewrite E12.
  - now rewrite (string_compare_trans s1 s2 s3).
Qed.

Lemma gt0_default_compare (x y : string) :
  gt0 (default_compare x y) = true <-> String.compare x y = Gt.
Proof.
  unfold default_compare.
  destruct (String.compare x y); split; intros H; try discriminate; reflexivity.
Qed.

Lemma sort_default_sorted (l : list string) :
  StronglySorted (fun a b => String.leb a b = true) (sort_default l).
Proof.
  apply (sort_sorted _ default_compare (fun _ => True)).
  - apply string_leb_trans.
  - intros x y _ _ E. unfold String.leb.
    destruct (String.compare x y) eqn:C; try reflexivity.
    apply gt0_default_compare in C. congruence.
  - intros x y _ _ E. apply gt0_default_compare in E.
    unfold String.leb. rewrite String.compare_antisym, E. reflexivity.
  - apply Forall_forall. auto.
Qed.

Lemma sorted_strict (l : list string) :
  NoDup l -> StronglySorted (fun a b => String.leb a b = true) l ->
  StronglySorted (fun a b => String.ltb a b = true) l.
Proof.
  intros Hn Hs. induction Hs as [|x l Hs IH Hx]; [constructor|].
  inversion Hn as [|? ? Nx Nl]; subst.
  constructor; [now apply IH|].
  rewrite Forall_forall in *. intros y Hy. specialize (Hx y Hy).
  unfold String.leb in Hx. unfold String.ltb.
  destruct (String.compare x y) eqn:C; try discriminate; try reflexivity.
  apply String.compare_eq_iff in C. subst. contradiction.
Qed.

Lemma first_occurrences_NoDup (l seen : list string) :
  NoDup (first_occurrences seen l).
Proof.
  revert seen. induction l as [|x l IH]; intros seen; simpl; [constructor|].
  destruct (existsb (String.eqb x) seen); [apply IH|].
  constructor; [|apply IH].
  rewrite first_occurrences_In, in_app_iff. simpl. tauto.
Qed.

End MonthKeys.

Section MonthOrder.

Local Open Scope Z_scope.

Lemma year_text_checked :
  forallb (fun n => String.eqb (Z_to_string (Z.of_nat n)) (year_text (Z.of_nat n)))
    (seq (Z.to_nat 1000) (Z.to_nat 9000)) = true.
Proof. vm_compute. reflexivity. Qed.

Lemma Z_to_string_year (y : Z) :
  1000 <= y <= 9999 -> Z_to_string y = year_text y.
Proof.
  intros H. pose proof year_text_checked as C.
  rewrite forallb_forall in C.
  specialize (C (Z.to_nat y)).
  rewrite Z2Nat.id in C by lia. apply String.eqb_eq, C.
  apply in_seq. lia.
Qed.

Lemma month_text_checked :
  forallb (fun n => String.eqb (padStart 2 "0" (Z_to_string (Z.of_nat n + 1)))
                      (month_text (Z.of_nat n)))
    (seq 0 12) = true.
Proof. vm_compute. reflexivity. Qed.

Lemma padded_month (m : Z) :
  0 <= m <= 11 -> padStart 2 "0" (Z_to_string (m + 1)) = month_text m.
Proof.
  intros H. pose proof month_text_checked as C.
  rewrite forallb_forall in C.
  specialize (C (Z.to_nat m)).
  rewrite Z2Nat.id in C by lia. apply String.eqb_eq, C.
  apply in_seq. lia.
Qed.

Lemma digit_compare (a b : Z) :
  0 <= a <= 9 -> 0 <= b <= 9 ->
  Ascii.compare (digit_of a) (digit_of b) = Z.compare a b.
Proof.
  intros Ha Hb. unfold Ascii.compare, digit_of, digit_char.
  rewrite !N_ascii_embedding by lia.
  rewrite <- N2Z.inj_compare, !N2Z.inj_add, !Z2N.id by lia.
  apply Z.add_compare_mono_l.
Qed.

Lemma year_month_compare (y1 m1 y2 m2 : Z) :
  1000 <= y1 <= 9999 -> 0 <= m1 <= 11 ->
  1000 <= y2 <= 9999 -> 0 <= m2 <= 11 ->
  String.compare (year_month_text y1 m1) (year_month_text y2 m2)
  = month_order y1 m1 y2 m2.
Proof.
  intros Hy1 Hm1 Hy2 Hm2.
  unfold year_month_text, year_text, month_text. cbn [append String.compare].
  change (Ascii.compare "-" "-") with Eq. cbv iota.
  rewrite !digit_compare
    by (split; first [apply Z.div_pos; lia | apply Z.mod_pos_bound; lia
                     | apply Z.div_lt_upper_bound; lia
                     | (apply Z.lt_succ_r, Z.mod_pos_bound; lia)
                     | (apply Z.lt_succ_r, Z.div_lt_upper_bound; lia)]).
  unfold month_order.
  repeat match goal with
         | |- context [Z.compare ?a ?b] =>
             destruct (Z.compare_spec a b)
         end;
    try reflexivity; exfalso; Z.to_euclidean_division_equations; lia.
Qed.

End MonthOrder.

Section Trend.

Local Open Scope Z_scope.

Variable host : DateHost.

Lemma four_digit_year_bounds (rec : Dashboard.ActivityRecord) :
  four_digit_year host rec = true ->
  1000 <= year_of host rec <= 9999 /\ 0 <= month_of host rec <= 11.
Proof. unfold four_digit_year. lia. Qed.

Lemma monthKey_text (rec : Dashboard.ActivityRecord) :
  four_digit_year host rec = true ->
  Dashboard.monthKey host rec
  = year_month_text (year_of host rec) (month_of host rec).
Proof.
  intros H. apply four_digit_year_bounds in H. destruct H as [Hy Hm].
  unfold Dashboard.monthKey, year_month_text.
  fold (year_of host rec) (month_of host rec).
  now rewrite Z_to_string_year, padded_month.
Qed.

Lemma trend_labels_perm (data : list Dashboard.ActivityRecord) :
  Permutation (fst (Dashboard.renderTrendChart host data))
    (first_occurrences [] (map (Dashboard.monthKey host) data)).
Proof.
  unfold Dashboard.renderTrendChart. cbn [fst]. unfold sort_default.
  rewrite sort_perm. unfold Object_keys.
  rewrite (Permutation_map fst (Object_entries_perm num _)).
  now rewrite totals_by_keys.
Qed.

(** C7. The trend chart files every record under the text made of its
    year, a dash and its month number padded to two digits, and lists the
    buckets by strictly ascending code-unit order of these keys.  When
    the years of the records have four digits the key is [YYYY-MM], and
    the order of two keys is the chronological order of their months. *)
Theorem month_buckets_sorted (data : list Dashboard.ActivityRecord) :
  let monthlyTotals := Dashboard.totals_by (Dashboard.monthKey host) data in
  let labels := fst (Dashboard.renderTrendChart host data) in
  let values := snd (Dashboard.renderTrendChart host data) in
  (forall k, In k labels <-> exists rec, In rec data /\ Dashboard.monthKey host rec = k)
  /\ StronglySorted (fun a b => String.ltb a b = true) labels
  /\ values = map (fun k => get k monthlyTotals) labels
  /\ Forall (fun v => v <> None) values
  /\ (forallb (four_digit_year host) data = true ->
      (forall rec, In rec data ->
         Dashboard.monthKey host rec
         = year_month_text (year_of host rec) (month_of host rec))
      /\ (forall r1 r2, In r1 data -> In r2 data ->
            String.compare (Dashboard.monthKey host r1) (Dashboard.monthKey host r2)
            = month_order (year_of host r1) (month_of host r1)
                (year_of host r2) (month_of host r2))).
Proof.
  intros monthlyTotals labels values.
  pose proof (trend_labels_perm data) as Hp. fold labels in Hp.
  assert (Hin : forall k, In k labels
                 <-> exists rec, In rec data /\ Dashboard.monthKey host rec = k).
  { intros k. split.
    - intros Hk. apply (Permutation_in _ Hp) in Hk.
      apply first_occurrences_In in Hk. destruct Hk as [Hk _].
      apply in_map_iff in Hk. destruct Hk as [rec [E Hr]]. now exists rec.
    - intros [rec [Hr E]]. apply (Permutation_in _ (Permutation_sym Hp)).
      apply first_occurrences_In. split; [|tauto].
      subst k. now apply in_map. }
  split; [exact Hin|]. split; [|split; [|split]].
  - apply sorted_strict.
    + apply (Permutation_NoDup (Permutation_sym Hp)), first_occurrences_NoDup.
    + apply sort_default_sorted.
  - reflexivity.
  - unfold values, Dashboard.renderTrendChart. cbn [snd].
    apply Forall_map, Forall_forall. intros k Hk.
    fold monthlyTotals. intros N. apply get_None_keys in N. apply N.
    apply (Permutation_in _ Hp) in Hk.
    unfold monthlyTotals. rewrite totals_by_keys. exact Hk.
  - intros H. rewrite forallb_forall in H. split.
    + intros rec Hr. apply monthKey_text, H, Hr.
    + intros r1 r2 H1 H2.
      rewrite !monthKey_text by (apply H; assumption).
      destruct (four_digit_year_bounds r1 (H r1 H1)).
      destruct (four_digit_year_bounds r2 (H r2 H2)).
      now apply year_month_compare.
Qed.

End Trend.

Lemma month_buckets_sorted_witness :
  let host := UTCHost.host in
  let data := Dashboard.computed Samples.office_rows in
  (forall rec, In rec data ->
     Dashboard.monthKey host rec
     = year_month_text (year_of host rec) (month_of host rec))
  /\ (forall r1 r2, In r1 data -> In r2 data ->
        String.compare (Dashboard.monthKey host r1) (Dashboard.monthKey host r2)
        = month_order (year_of host r1) (month_of host r1)
            (year_of host r2) (month_of host r2)).
Proof.
  apply (month_buckets_sorted UTCHost.host (Dashboard.computed Samples.office_rows)).
  vm_compute. reflexivity.
Defined.

(** The trend of the office sample: January before February. *)
Example office_trend :
  let t := Dashboard.renderTrendChart UTCHost.host
             (Dashboard.computed Samples.office_rows) in
  fst t = ["2024-01"; "2024-02"]%string
  /\ map (option_map show) (snd t) = [Some (VQ (181067 # 2000)%Q); Some (VQ (25 # 2)%Q)].
Proof. vm_compute. split; reflexivity. Qed.

(** The example of the specification: 100 kWh of electricity and 50 km
    by car give 82 and 8.5335, in total 90.5335, with electricity on
    top. *)
Example two_rows_summary :
  let s := Dashboard.renderSummary (Dashboard.computed Samples.two_rows) in
  show (Dashboard.total s) = VQ (181067 # 2000)
  /\ map (fun e => (fst e, show (snd e))) (Dashboard.catTotals s)
     = [("electricity"%string, VQ 82); ("transport_car"%string, VQ (17067 # 2000))]
  /\ option_map fst (Dashboard.topCat s) = Some "electricity"%string
  /\ option_map fst (Dashboard.topDept s) = Some "Ops"%string.
Proof. vm_compute. repeat split. Qed.

(** ** Emission factors *)

Section Factors.

Local Open Scope string_scope.

(** C6. The factors are 0.82 for electricity, 0.11 for bus, 0.04 for
    train, 0.46 for flight, 1.0 for waste and 15 for a meat meal; the car
    factor is 0.18 in the calculator and 0.17067 in the dashboard, and
    these are the factors that the two programs multiply by. *)
Theorem emission_factor_constants :
  Dashboard.EMISSION_FACTORS
  = [ ("electricity", dec 82 2); ("transport_car", dec 17067 5);
      ("transport_bus", dec 11 2); ("transport_train", dec 4 2);
      ("transport_flight", dec 46 2); ("waste", dec 10 1) ]
  /\ Script.EMISSION_FACTORS
     = [ ("car", dec 18 2); ("bus", dec 11 2); ("train", dec 4 2);
         ("flight", dec 46 2) ]
  /\ Script.ELECTRICITY_FACTOR = dec 82 2
  /\ Script.MEAT_MEAL_FACTOR = of_Z 15
  /\ map show (vals Dashboard.EMISSION_FACTORS)
     = [ VQ (41 # 50); VQ (17067 # 100000); VQ (11 # 100); VQ (1 # 25);
         VQ (23 # 50); VQ 1 ]
  /\ map show (vals Script.EMISSION_FACTORS)
     = [ VQ (9 # 50); VQ (11 # 100); VQ (1 # 25); VQ (23 # 50) ]
  /\ get "car" Script.EMISSION_FACTORS <> get "transport_car" Dashboard.EMISSION_FACTORS
  /\ (forall cat, In cat (map fst Dashboard.EMISSION_FACTORS) ->
        get cat Dashboard.EMISSION_FACTORS = Some (Dashboard.factor_of cat))
  /\ (forall distance mode kWh meatMeals,
        let e := Script.emissions distance mode kWh meatMeals in
        Script.transportEmission e
        = mul (Script.input_number distance) (or0 (get mode Script.EMISSION_FACTORS))
        /\ Script.electricityEmission e
           = mul (Script.input_number kWh) (dec 82 2)
        /\ Script.meatEmission e = mul (Script.input_number meatMeals) (of_Z 15)).
Proof.
  repeat (split; [reflexivity|]).
  split; [|split].
  - intros E. apply (f_equal (option_map show)) in E. vm_compute in E.
    discriminate.
  - intros cat H. simpl in H.
    repeat (destruct H as [<-|H]; [vm_compute; reflexivity|]). contradiction.
  - intros. repeat split.
Qed.

End Factors.

(** ** The history store *)

Section History.

Variable host : JSONHost.

Lemma stored_history_unreadable (item : option string) :
  unreadable host item -> Script.stored_history host item = JArray [].
Proof.
  unfold Script.stored_history, Script.parse_item.
  destruct item as [s|]; simpl; [intros ->|]; reflexivity.
Qed.

Lemma loadHistory_empty (p : Script.Page) :
  Script.stored_history host (Script.carbonHistory p) = JArray [] ->
  Script.loadHistory host p = (Ok tt, with_view Script.NoHistory p).
Proof.
  intros H. unfold Script.loadHistory, Script.bind, Script.getItem. simpl.
  rewrite H. reflexivity.
Qed.

Lemma loadHistory_storage (p : Script.Page) :
  Script.carbonHistory (snd (Script.loadHistory host p)) = Script.carbonHistory p
  /\ Script.alerts (snd (Script.loadHistory host p)) = Script.alerts p
  /\ Script.dataset_result (snd (Script.loadHistory host p)) = Script.dataset_result p.
Proof.
  unfold Script.loadHistory, Script.bind, Script.getItem. simpl.
  destruct (Script.length_is_zero _); [repeat split|].
  destruct (Script.stored_history host (Script.carbonHistory p));
    try (repeat split; fail).
  unfold Script.lift. destruct (Script.table_rows l); repeat split.
Qed.

Lemma saveResult_no_result (p : Script.Page) :
  no_result p ->
  Script.saveResult host p = (Ok tt, with_alert Script.please_calculate p).
Proof.
  unfold no_result, Script.saveResult.
  destruct (Script.dataset_result p) as [data|]; [intros ->|]; reflexivity.
Qed.

Lemma saveResult_stores (p : Script.Page) (data : string) (entry : json)
  (es : list json) :
  Script.dataset_result p = Some data -> nonempty data = true ->
  JSON_parse host data = Some entry ->
  Script.stored_history host (Script.carbonHistory p) = JArray es ->
  Script.carbonHistory (snd (Script.saveResult host p))
  = Some (JSON_stringify host (JArray (es ++ [entry]))).
Proof.
  intros Hd Hn He Hs. unfold Script.saveResult. rewrite Hd, Hn. simpl.
  unfold Script.bind, Script.lift, Script.getItem. rewrite He, Hs. simpl.
  match goal with
  | |- context [Script.loadHistory host ?q] =>
      destruct (loadHistory_storage q) as [E _];
      destruct (Script.loadHistory host q) as [[u|e] q'] eqn:L
  end; simpl in *; exact E.
Qed.

(** C8. When the stored history is absent or is not JSON, loading
    yields the empty list and shows the empty-history message without
    throwing, and saving a result stores the list of that one result, as
    from an empty history. *)
Theorem unreadable_history_is_empty (p : Script.Page) :
  unreadable host (Script.carbonHistory p) ->
  Script.stored_history host (Script.carbonHistory p) = JArray []
  /\ Script.loadHistory host p = (Ok tt, with_view Script.NoHistory p)
  /\ (forall data entry,
        Script.dataset_result p = Some data -> nonempty data = true ->
        JSON_parse host data = Some entry ->
        Script.carbonHistory (snd (Script.saveResult host p))
        = Some (JSON_stringify host (JArray [entry]))).
Proof.
  intros H. pose proof (stored_history_unreadable _ H) as E.
  split; [exact E|]. split; [now apply loadHistory_empty|].
  intros data entry Hd Hn He.
  now rewrite (saveResult_stores p data entry [] Hd Hn He E).
Qed.

(** C9. Saving when no calculation has left a result shows the prompt
    and changes nothing else, the stored history included.  Saving a
    result when the stored history is the list [es] stores the list [es]
    followed by the result; where the host reads back what it writes, the
    history loaded afterwards is that list. *)
Theorem save_appends_or_prompts (p : Script.Page) :
  (no_result p ->
     Script.saveResult host p = (Ok tt, with_alert Script.please_calculate p))
  /\ (forall data entry es,
        Script.dataset_result p = Some data -> nonempty data = true ->
        JSON_parse host data = Some entry ->
        Script.stored_history host (Script.carbonHistory p) = JArray es ->
        let p' := snd (Script.saveResult host p) in
        Script.carbonHistory p'
        = Some (JSON_stringify host (JArray (es ++ [entry])))
        /\ (JSON_parse host (JSON_stringify host (JArray (es ++ [entry])))
            = Some (JArray (es ++ [entry])) ->
            Script.stored_history host (Script.carbonHistory p')
            = JArray (es ++ [entry]))).
Proof.
  split; [apply saveResult_no_result|].
  intros data entry es Hd Hn He Hs p'.
  pose proof (saveResult_stores p data entry es Hd Hn He Hs) as E.
  fold p' in E. split; [exact E|].
  intros R. rewrite E. unfold Script.stored_history, Script.parse_item.
  now rewrite R.
Qed.

End History.

Lemma unreadable_history_is_empty_witness :
  let host := TextHost.host in
  let p := Samples.corrupt_page in
  Script.stored_history host (Script.carbonHistory p) = JArray []
  /\ Script.loadHistory host p = (Ok tt, with_view Script.NoHistory p)
  /\ (forall data entry,
        Script.dataset_result p = Some data -> nonempty data = true ->
        JSON_parse host data = Some entry ->
        Script.carbonHistory (snd (Script.saveResult host p))
        = Some (JSON_stringify host (JArray [entry]))).
Proof.
  apply (unreadable_history_is_empty TextHost.host Samples.corrupt_page).
  vm_compute. reflexivity.
Defined.

Lemma save_appends_or_prompts_witness :
  let host := TextHost.host in
  Script.saveResult host Samples.fresh_page
  = (Ok tt, with_alert Script.please_calculate Samples.fresh_page)
  /\ (let p := CalculatorSamples.recalculated_page in
      let es := CalculatorSamples.entries_of p in
      let entry := CalculatorSamples.entry_of_result p in
      let p' := snd (Script.saveResult host p) in
      Script.carbonHistory p'
      = Some (JSON_stringify host (JArray (es ++ [entry])))
      /\ (JSON_parse host (JSON_stringify host (JArray (es ++ [entry])))
          = Some (JArray (es ++ [entry])) ->
          Script.stored_history host (Script.carbonHistory p')
          = JArray (es ++ [entry]))).
Proof.
  split.
  - apply (proj1 (save_appends_or_prompts TextHost.host Samples.fresh_page)).
    exact I.
  - apply (proj2 (save_appends_or_prompts TextHost.host
                    CalculatorSamples.recalculated_page)
             (CalculatorSamples.result_of CalculatorSamples.recalculated_page));
      vm_compute; reflexivity.
Defined.

(** One calculation, saved, then a second one, saved: the stored text
    is that of the two entries in the order of saving, and the table shows
    them. *)
Example two_saves :
  let p := snd (Script.saveResult TextHost.host CalculatorSamples.recalculated_page) in
  Script.carbonHistory p
  = Some (TextHost.stringify
            (JArray [ Script.entry_of 1700000000000
                        (Script.emissions "100" "car" "50" "1");
                      Script.entry_of 1700000500000
                        (Script.emissions "100" "train" "0" "2") ]))
  /\ Script.alerts p = [Script.saved_message; Script.saved_message]
  /\ match Script.historyContainer p with
     | Script.Table rows =>
         map (fun r => match r with
                       | (_, t, tr, el, me) => (show t, show tr, show el, show me)
                       end) rows
         = [ (VQ 74, VQ 18, VQ 41, VQ 15); (VQ 34, VQ 4, VQ 0, VQ 30) ]
     | _ => False
     end.
Proof. vm_compute. repeat split. Qed.

(** Clearing the history after that leaves no stored item and shows the
    empty-history message; declining the confirmation changes nothing. *)
Example clear_after_saves :
  let p := snd (Script.saveResult TextHost.host CalculatorSamples.recalculated_page) in
  let cleared := snd (Script.clearHistory TextHost.host true p) in
  Script.carbonHistory cleared = None
  /\ Script.historyContainer cleared = Script.NoHistory
  /\ Script.clearHistory TextHost.host false p = (Ok tt, p).
Proof. vm_compute. repeat split. Qed.

(** * Further properties *)

(** ** The parser *)

Section ParserMore.

Variable host : DateHost.

Lemma split_lines_single (s : string) :
  contains LF s = false -> split_lines s = [s].
Proof.
  induction s as [|c s IH]; [reflexivity|].
  cbn [contains]. intros H. apply Bool.orb_false_iff in H. destruct H as [Hc Hs].
  cbn [split_lines]. rewrite Hc.
  destruct s as [|d s']; [reflexivity|].
  cbn [contains] in Hs. apply Bool.orb_false_iff in Hs. destruct Hs as [Hd Hs'].
  rewrite Hd, Bool.andb_false_r.
  rewrite IH by (cbn [contains]; now rewrite Hd, Hs'). reflexivity.
Qed.

(** X1. A text that, white space trimmed, has no line feed (it is empty
    or consists of the header line only) gives no record and no error,
    and the load handler renders nothing. *)
Theorem header_only_gives_nothing (text : string) :
  contains LF (trim text) = false ->
  Dashboard.parseCSV host text = Ok []
  /\ Dashboard.onload host text = Ok None.
Proof.
  intros H.
  assert (E : Dashboard.parseCSV host text = Ok []).
  { unfold Dashboard.parseCSV. now rewrite (split_lines_single _ H). }
  split; [exact E|]. unfold Dashboard.onload. now rewrite E.
Qed.

Lemma category_column (header values : list string) :
  get "category" (Dashboard.build_record header 0 values empty) = None
  <-> ~ In "category"%string header.
Proof.
  rewrite get_None_keys, build_record_keys. simpl.
  rewrite first_occurrences_In. simpl. tauto.
Qed.

Lemma parse_lines_throws (header lines : list string) (data : list Dashboard.Row) :
  (exists e, Dashboard.parse_lines host header lines data = Throw e)
  <-> ~ In "category"%string header
      /\ exists line, In line lines /\ accepted host header line = true.
Proof.
  revert data. induction lines as [|line lines IH]; intros data.
  - simpl. split; [intros [e H]; discriminate | intros [_ [l [[] _]]]].
  - cbn [Dashboard.parse_lines].
    assert (Skip : accepted host header line = false ->
              ((exists e, Dashboard.parse_lines host header lines data = Throw e)
               <-> ~ In "category"%string header
                   /\ exists l, In l (line :: lines) /\ accepted host header l = true)).
    { intros A. rewrite IH. split.
      - intros [N [l [Hl Al]]]. split; [exact N|]. exists l. split; [now right | exact Al].
      - intros [N [l [[<-|Hl] Al]]]; [congruence|]. split; [exact N|]. now exists l. }
    unfold accepted at 1 in Skip. unfold date_of_line in Skip.
    destruct (Dashboard.skipped line) eqn:S; [now apply Skip|].
    destruct (Dashboard.new_Date host _) as [d|] eqn:D; [|now apply Skip].
    destruct (get "category" _) as [c|] eqn:C.
    + rewrite IH.
      assert (Hc : In "category"%string header).
      { destruct (in_dec string_dec "category"%string header) as [i|n]; [exact i|].
        apply category_column with (values := split_char "," line) in n.
        congruence. }
      split; intros [N _]; contradiction.
    + apply category_column in C. split; [|intros _; now exists TypeError].
      intros _. split; [exact C|]. exists line. split; [now left|].
      unfold accepted, date_of_line. now rewrite S, D.
Qed.

(** X2. The parser throws exactly when the header has no category column
    and some data line is neither skipped nor of invalid date; with a
    category column it never throws, and the error is always the
    TypeError of reading [toLowerCase] from undefined. *)
Theorem parser_throws_without_category (header_line : string) (rest : list string) :
  ((exists e, Dashboard.parseCSV_lines host (header_line :: rest) = Throw e)
   <-> ~ In "category"%string (Dashboard.header_of header_line)
       /\ exists line, In line rest
            /\ accepted host (Dashboard.header_of header_line) line = true)
  /\ (forall e, Dashboard.parseCSV_lines host (header_line :: rest) = Throw e ->
        e = TypeError).
Proof.
  split.
  - unfold Dashboard.parseCSV_lines. destruct rest as [|l ls].
    + split; [intros [e H]; discriminate | intros [_ [l [[] _]]]].
    + apply parse_lines_throws.
  - intros e. unfold Dashboard.parseCSV_lines. destruct rest as [|l ls]; [discriminate|].
    generalize (l :: ls) (@nil Dashboard.Row). intros lines.
    induction lines as [|line lines IH]; intros data; simpl; [discriminate|].
    destruct (Dashboard.skipped line); [apply IH|].
    destruct (Dashboard.new_Date host _); [|apply IH].
    destruct (get "category" _); [apply IH | now intros [= <-]].
Qed.

End ParserMore.

Lemma header_only_gives_nothing_witness :
  Dashboard.parseCSV UTCHost.host "Date,Department,Category,Unit,Amount  "
  = Ok []
  /\ Dashboard.onload UTCHost.host "Date,Department,Category,Unit,Amount  "
     = Ok None.
Proof.
  apply (header_only_gives_nothing UTCHost.host). vm_compute. reflexivity.
Defined.

Lemma parser_throws_without_category_witness :
  exists e,
    Dashboard.parseCSV_lines UTCHost.host
      ("Date,Department,Amount"%string :: ["2024-01-05,Ops,100"%string]) = Throw e.
Proof.
  apply (proj1 (parser_throws_without_category UTCHost.host
                  "Date,Department,Amount" ["2024-01-05,Ops,100"%string])).
  split.
  - vm_compute. intuition discriminate.
  - exists "2024-01-05,Ops,100"%string. split; [now left | vm_compute; reflexivity].
Defined.

Section ParserRecords.

Variable host : DateHost.

Lemma lower_char_idempotent (c : ascii) : lower_char (lower_char c) = lower_char c.
Proof.
  destruct c as [[] [] [] [] [] [] [] []]; vm_compute; reflexivity.
Qed.

Lemma toLowerCase_idempotent (s : string) :
  toLowerCase (toLowerCase s) = toLowerCase s.
Proof.
  induction s as [|c s IH]; simpl; [reflexivity|].
  now rewrite lower_char_idempotent, IH.
Qed.

Lemma parse_lines_invariant (P : Dashboard.Row -> Prop) (header : list string) :
  (forall record d a c,
      P {| Dashboard.fields := record; Dashboard.date := d;
           Dashboard.amount := a; Dashboard.category := toLowerCase c |}
      \/ get "category" record <> Some c) ->
  forall lines data rows,
    Forall P data ->
    Dashboard.parse_lines host header lines data = Ok rows -> Forall P rows.
Proof.
  intros HP lines. induction lines as [|line lines IH]; intros data rows Hd; simpl.
  - now intros [= <-].
  - destruct (Dashboard.skipped line); [now apply IH|].
    destruct (Dashboard.new_Date host _) as [d|]; [|now apply IH].
    destruct (get "category" _) as [c|] eqn:C; [|discriminate].
    apply IH. apply Forall_app. split; [exact Hd|].
    constructor; [|constructor].
    destruct (HP (Dashboard.build_record header 0 (split_char "," line) empty)
                d (parseFloat (ToString (get "amount"
                     (Dashboard.build_record header 0 (split_char "," line) empty)))) c)
      as [H|H]; [exact H | congruence].
Qed.

(** X3. Every record that the parser returns has its category in lower
    case: it is the lower-case form of the text of its category column,
    and lowering it again changes nothing, so the factor lookup does not
    depend on the case used in the file. *)
Theorem parsed_category_is_lowercase (text : string) (rows : list Dashboard.Row) :
  Dashboard.parseCSV host text = Ok rows ->
  Forall (fun r =>
            toLowerCase (Dashboard.category r) = Dashboard.category r
            /\ exists c, get "category" (Dashboard.fields r) = Some c
                         /\ Dashboard.category r = toLowerCase c) rows.
Proof.
  unfold Dashboard.parseCSV, Dashboard.parseCSV_lines.
  destruct (split_lines (trim text)) as [|h [|l ls]];
    try (intros [= <-]; constructor).
  apply parse_lines_invariant; [|constructor].
  intros record d a c.
  destruct (get "category" record) as [c'|] eqn:G; [|right; discriminate].
  destruct (string_dec c' c) as [->|N]; [left | right; congruence].
  simpl. split; [apply toLowerCase_idempotent | now exists c].
Qed.

Lemma parse_lines_acc (header lines : list string) (data : list Dashboard.Row) :
  Dashboard.parse_lines host header lines data
  = match Dashboard.parse_lines host header lines [] with
    | Ok new => Ok (data ++ new)
    | Throw e => Throw e
    end.
Proof.
  revert data. induction lines as [|line lines IH]; intros data; simpl.
  - now rewrite app_nil_r.
  - destruct (Dashboard.skipped line); [apply IH|].
    destruct (Dashboard.new_Date host _) as [d|]; [|apply IH].
    destruct (get "category" _) as [c|]; [|reflexivity].
    match goal with
    | |- context [data ++ [?r]] => rewrite (IH (data ++ [r])), (IH [r])
    end.
    destruct (Dashboard.parse_lines host header lines []); [|reflexivity].
    now rewrite <- app_assoc.
Qed.

Lemma parse_lines_length (header lines : list string) (rows : list Dashboard.Row) :
  Dashboard.parse_lines host header lines [] = Ok rows ->
  (List.length rows <= List.length lines)%nat.
Proof.
  revert rows. induction lines as [|line lines IH]; intros rows; simpl.
  - intros [= <-]. constructor.
  - destruct (Dashboard.skipped line); [intros H; apply IH in H; lia|].
    destruct (Dashboard.new_Date host _) as [d|]; [|intros H; apply IH in H; lia].
    destruct (get "category" _) as [c|]; [|discriminate].
    rewrite parse_lines_acc.
    destruct (Dashboard.parse_lines host header lines []) as [new|]; [|discriminate].
    intros [= <-]. specialize (IH new eq_refl). simpl. lia.
Qed.

(** X4. Records come out in the order of their lines, at most one per
    line: parsing two blocks of lines under one header gives the records
    of the first block followed by those of the second. *)
Theorem records_follow_lines (header l1 l2 : list string)
  (r1 r2 : list Dashboard.Row) :
  Dashboard.parse_lines host header l1 [] = Ok r1 ->
  Dashboard.parse_lines host header l2 [] = Ok r2 ->
  Dashboard.parse_lines host header (l1 ++ l2) [] = Ok (r1 ++ r2)
  /\ (List.length r1 <= List.length l1)%nat.
Proof.
  intros H1 H2. split; [|now apply (parse_lines_length header)].
  now rewrite parse_lines_app, H1, parse_lines_acc, H2.
Qed.

End ParserRecords.

Lemma parsed_category_is_lowercase_witness :
  Forall (fun r =>
            toLowerCase (Dashboard.category r) = Dashboard.category r
            /\ exists c, get "category" (Dashboard.fields r) = Some c
                         /\ Dashboard.category r = toLowerCase c)
    MoreSamples.upper_rows.
Proof.
  apply (parsed_category_is_lowercase UTCHost.host MoreSamples.upper_csv).
  vm_compute. reflexivity.
Defined.

Lemma records_follow_lines_witness :
  let header := Dashboard.header_of "Date,Department,Category,Unit,Amount" in
  let l1 := ["2024-01-05,Ops,electricity,kWh,100"; "# note"]%string in
  let l2 := ["bad,Ops,waste,kg,1"; "2024-01-06,Ops,waste,kg,2"]%string in
  Dashboard.parse_lines UTCHost.host header (l1 ++ l2) []
  = Ok (MoreSamples.parsed UTCHost.host header l1 ++ MoreSamples.parsed UTCHost.host header l2)
  /\ (List.length (MoreSamples.parsed UTCHost.host header l1) <= List.length l1)%nat.
Proof.
  apply (records_follow_lines UTCHost.host); vm_compute; reflexivity.
Defined.

(** ** Records and their order *)

Section RecordFields.






End RecordFields.

Section DateOrder.

Local Open Scope Z_scope.

Lemma of_Z_lt (a b : Z) :
  (Q2Qc (inject_Z a) < Q2Qc (inject_Z b))%Qc <-> a < b.
Proof.
  unfold Qclt, Q2Qc. cbn [this]. rewrite !Qred_correct, <- Zlt_Qlt. reflexivity.
Qed.

Lemma gt0_by_date (x y : Dashboard.ActivityRecord) :
  gt0 (Dashboard.by_date x y) = true
  <-> Dashboard.date (Dashboard.row y) < Dashboard.date (Dashboard.row x).
Proof.
  unfold Dashboard.by_date, of_Z. rewrite gt0_sub_Fin. apply of_Z_lt.
Qed.

Lemma filter_map {A B : Type} (f : A -> B) (p : B -> bool) (l : list A) :
  filter p (map f l) = map f (filter (fun a => p (f a)) l).
Proof.
  induction l as [|a l IH]; simpl; [reflexivity|].
  destruct (p (f a)); simpl; now rewrite IH.
Qed.

(** X6. [processData] orders the records by ascending date without
    losing or repeating any, and keeps records of one date in the order
    of the file. *)
Theorem records_sorted_by_date (rows : list Dashboard.Row) :
  let data := Dashboard.computed rows in
  Permutation data (map Dashboard.with_emission rows)
  /\ StronglySorted
       (fun a b => Dashboard.date (Dashboard.row a) <= Dashboard.date (Dashboard.row b))
       data
  /\ forall d, filter (on_date d) data
               = map Dashboard.with_emission
                   (filter (fun r => Z.eqb (Dashboard.date r) d) rows).
Proof.
  intros data. split; [apply computed_perm|]. split.
  - apply (sort_sorted _ Dashboard.by_date (fun _ => True)).
    + intros x y z. apply Z.le_trans.
    + intros x y _ _ E. apply Z.le_ngt. intros L.
      apply gt0_by_date in L. congruence.
    + intros x y _ _ E. apply gt0_by_date in E. lia.
    + apply Forall_forall. auto.
  - intros d. unfold data, Dashboard.computed.
    rewrite sort_stable.
    + apply filter_map.
    + intros x y Hx Hy. unfold on_date in *.
      apply Z.eqb_eq in Hx, Hy.
      destruct (gt0 (Dashboard.by_date x y)) eqn:E; [|reflexivity].
      apply gt0_by_date in E. lia.
Qed.

End DateOrder.

(** ** Buckets, ranking, cues and shares *)

Section BucketsMore.

Local Open Scope Qc_scope.









End BucketsMore.


Section Cues.

Local Open Scope Qc_scope.
Local Open Scope string_scope.

(** X9. The cue table covers exactly the categories of the factor
    table: each of them has a cue of its own, different from the generic
    one, and every other category gets the generic cue. *)
Theorem cues_cover_factor_table (cat : string) :
  (get cat Dashboard.EMISSION_FACTORS = None ->
     Dashboard.generateCue cat = Dashboard.generic_cue)
  /\ (get cat Dashboard.EMISSION_FACTORS <> None ->
        Dashboard.generateCue cat <> Dashboard.generic_cue)
  /\ NoDup (map Dashboard.generateCue (map fst Dashboard.EMISSION_FACTORS)).
Proof.
  split; [|split].
  - unfold Dashboard.generateCue, Dashboard.EMISSION_FACTORS. cbn [get].
    rewrite !(String.eqb_sym cat).
    repeat match goal with
           | |- context [String.eqb ?k cat] =>
               destruct (String.eqb k cat); [discriminate|]
           end.
    reflexivity.
  - intros H. assert (I : In cat (map fst Dashboard.EMISSION_FACTORS)).
    { destruct (in_dec string_dec cat (map fst Dashboard.EMISSION_FACTORS)) as [i|n];
        [exact i|]. apply get_None_keys in n. contradiction. }
    simpl in I.
    repeat (destruct I as [<-|I]; [vm_compute; discriminate|]). contradiction.
  - simpl. repeat (constructor; [simpl; intuition discriminate|]). constructor.
Qed.




End Cues.

Lemma cues_cover_factor_table_witness :
  Dashboard.generateCue "water" = Dashboard.generic_cue
  /\ Dashboard.generateCue "waste" <> Dashboard.generic_cue.
Proof.
  split.
  - apply (proj1 (cues_cover_factor_table "water")). reflexivity.
  - apply (proj1 (proj2 (cues_cover_factor_table "waste"))). discriminate.
Defined.


(** ** The history store, further *)

Section HistoryMore.

Variable host : JSONHost.

Lemma loadHistory_shape (p : Script.Page) :
  exists r v,
    forall q, Script.carbonHistory q = Script.carbonHistory p ->
              Script.loadHistory host q = (r, with_view v q).
Proof.
  destruct (Script.length_is_zero (Script.stored_history host (Script.carbonHistory p)))
    eqn:Z.
  - exists (Ok tt), Script.NoHistory. intros q Hq. rewrite <- Hq in Z.
    unfold Script.loadHistory, Script.bind, Script.getItem. simpl.
    now rewrite Z.
  - destruct (Script.stored_history host (Script.carbonHistory p)) eqn:S;
      try (exists (Throw TypeError), Script.Cleared; intros q Hq;
           rewrite <- Hq in S;
           unfold Script.loadHistory, Script.bind, Script.getItem; simpl;
           rewrite S in *; rewrite Z; reflexivity).
    destruct (Script.table_rows l) as [rows|e] eqn:T.
    + exists (Ok tt), (Script.Table rows). intros q Hq. rewrite <- Hq in S.
      unfold Script.loadHistory, Script.bind, Script.getItem. simpl.
      rewrite S in *. rewrite Z. unfold Script.lift. now rewrite T.
    + exists (Throw e), Script.Cleared. intros q Hq. rewrite <- Hq in S.
      unfold Script.loadHistory, Script.bind, Script.getItem. simpl.
      rewrite S in *. rewrite Z. unfold Script.lift. now rewrite T.
Qed.

(** X11. Loading the history never writes: whatever is stored and
    whether or not it throws, the stored item, the alerts and the pending
    result are as before; and loading a second time gives the same outcome
    and the same page as loading once. *)
Theorem loading_never_writes (p : Script.Page) :
  let p' := snd (Script.loadHistory host p) in
  Script.carbonHistory p' = Script.carbonHistory p
  /\ Script.alerts p' = Script.alerts p
  /\ Script.dataset_result p' = Script.dataset_result p
  /\ Script.loadHistory host p' = Script.loadHistory host p.
Proof.
  intros p'. destruct (loadHistory_shape p) as [r [v H]].
  pose proof (H p eq_refl) as E. unfold p'. rewrite E. simpl.
  repeat split. now rewrite (H (with_view v p) eq_refl).
Qed.

(** X12. A save that cannot go through changes nothing: when the
    pending result is not JSON the save throws a SyntaxError, and when the
    stored history is a JSON value other than a list it throws a
    TypeError; in both cases the stored item, the alerts and the view are
    untouched. *)
Theorem failed_save_changes_nothing (p : Script.Page) (data : string) :
  Script.dataset_result p = Some data -> nonempty data = true ->
  (JSON_parse host data = None ->
     Script.saveResult host p = (Throw SyntaxError, p))
  /\ (forall entry,
        JSON_parse host data = Some entry ->
        (forall es, Script.stored_history host (Script.carbonHistory p) <> JArray es) ->
        Script.saveResult host p = (Throw TypeError, p)).
Proof.
  intros Hd Hn. split.
  - intros He. unfold Script.saveResult. rewrite Hd, Hn. simpl.
    unfold Script.bind, Script.lift. now rewrite He.
  - intros entry He Hs. unfold Script.saveResult. rewrite Hd, Hn. simpl.
    unfold Script.bind, Script.lift, Script.getItem. rewrite He.
    destruct (Script.stored_history host (Script.carbonHistory p)) eqn:S;
      try reflexivity.
    exfalso. now apply (Hs l).
Qed.

(** X13. Clearing the history, once confirmed, removes the stored item
    and shows the empty-history message, keeping alerts and pending
    result; declined, it changes nothing.  A result saved after clearing
    starts a history of that one entry. *)
Theorem clear_resets_history (p : Script.Page) :
  Script.clearHistory host true p
  = (Ok tt, with_view Script.NoHistory (with_storage None p))
  /\ Script.clearHistory host false p = (Ok tt, p)
  /\ (forall data entry,
        Script.dataset_result p = Some data -> nonempty data = true ->
        JSON_parse host data = Some entry ->
        Script.carbonHistory
          (snd (Script.saveResult host (snd (Script.clearHistory host true p))))
        = Some (JSON_stringify host (JArray [entry]))).
Proof.
  assert (E : Script.clearHistory host true p
              = (Ok tt, with_view Script.NoHistory (with_storage None p))).
  { unfold Script.clearHistory, Script.bind, Script.removeItem, Script.write_item.
    change (Script.loadHistory host ?q) with (Script.loadHistory host q).
    rewrite loadHistory_empty; reflexivity. }
  split; [exact E|]. split; [reflexivity|].
  intros data entry Hd Hn He. rewrite E. cbn [snd].
  now rewrite (saveResult_stores host
                 (with_view Script.NoHistory (with_storage None p))
                 data entry [] Hd Hn He eq_refl).
Qed.

Lemma table_rows_entries (l : list (Z * Script.Emissions)) :
  Script.table_rows (map (fun ne => Script.entry_of (fst ne) (snd ne)) l)
  = Ok (map (fun ne => row_of (fst ne) (snd ne)) l).
Proof.
  induction l as [|[now e] l IH]; [reflexivity|].
  cbn [map Script.table_rows]. rewrite IH. reflexivity.
Qed.

(** X14. Entries made by [calculateEmissions] always render: when the
    stored history is a non-empty list of such entries, loading shows a
    table with one row per entry, in the stored order, holding the total
    and the three parts of that calculation. *)
Theorem saved_entries_are_shown (p : Script.Page) (l : list (Z * Script.Emissions)) :
  l <> [] ->
  Script.stored_history host (Script.carbonHistory p)
  = JArray (map (fun ne => Script.entry_of (fst ne) (snd ne)) l) ->
  Script.loadHistory host p
  = (Ok tt, with_view (Script.Table (map (fun ne => row_of (fst ne) (snd ne)) l)) p).
Proof.
  intros Hne Hs. unfold Script.loadHistory, Script.bind, Script.getItem. simpl.
  rewrite Hs. destruct l as [|ne l]; [contradiction|].
  cbn [map Script.length_is_zero]. unfold Script.lift.
  change (Script.entry_of (fst ne) (snd ne)
          :: map (fun ne => Script.entry_of (fst ne) (snd ne)) l)
    with (map (fun ne => Script.entry_of (fst ne) (snd ne)) (ne :: l)).
  rewrite table_rows_entries. reflexivity.
Qed.

Lemma prop_throw (k : string) (v : json) (e : error) :
  Script.prop k v = Throw e -> e = TypeError.
Proof. destruct v; simpl; congruence. Qed.

Lemma number_of_throw (v : option json) (e : error) :
  Script.number_of v = Throw e -> e = TypeError.
Proof. destruct v as [[]|]; simpl; congruence. Qed.

Lemma member_throw (k : string) (v : option json) (e : error) :
  Script.member k v = Throw e -> e = TypeError.
Proof. destruct v as [w|]; simpl; [apply prop_throw | congruence]. Qed.

Lemma and_then_throw {A B : Type} (r : result A) (k : A -> result B) (e : error) :
  Script.and_then r k = Throw e ->
  r = Throw e \/ exists a, r = Ok a /\ k a = Throw e.
Proof.
  destruct r as [a|e']; simpl; [right; now exists a | left; congruence].
Qed.

Lemma table_row_throw (x : json) (e : error) :
  Script.table_row x = Throw e -> e = TypeError.
Proof.
  unfold Script.table_row. intros H.
  repeat match goal with
         | H : Script.and_then _ _ = Throw _ |- _ =>
             apply and_then_throw in H; destruct H as [H|[? [_ H]]]
         | H : Script.prop _ _ = Throw _ |- _ => exact (prop_throw _ _ _ H)
         | H : Script.member _ _ = Throw _ |- _ => exact (member_throw _ _ _ H)
         | H : Script.number_of _ = Throw _ |- _ => exact (number_of_throw _ _ H)
         | H : Ok _ = Throw _ |- _ => discriminate H
         end.
Qed.

Lemma table_rows_throw (entries : list json) (e : error) :
  Script.table_rows entries = Throw e -> e = TypeError.
Proof.
  induction entries as [|x entries IH]; simpl; [discriminate|].
  destruct (Script.table_row x) as [r|e'] eqn:R; simpl.
  - destruct (Script.table_rows entries); simpl; [discriminate|].
    intros [= <-]. now apply IH.
  - intros [= <-]. exact (table_row_throw x e' R).
Qed.

Lemma table_rows_null (entries : list json) :
  In JNull entries -> Script.table_rows entries = Throw TypeError.
Proof.
  induction entries as [|x entries IH]; [contradiction|].
  intros [->|H]; [reflexivity|]. simpl.
  destruct (Script.table_row x) as [r|e] eqn:R; simpl.
  - now rewrite (IH H).
  - f_equal. apply (table_rows_throw [x] e). simpl. now rewrite R.
Qed.

(** X15. A null among the stored entries makes loading throw a
    TypeError after the containers were emptied: no message and no table
    is shown, and the stored item stays as it is. *)
Theorem null_entry_stops_loading (p : Script.Page) (entries : list json) :
  Script.stored_history host (Script.carbonHistory p) = JArray entries ->
  In JNull entries ->
  Script.loadHistory host p = (Throw TypeError, with_view Script.Cleared p).
Proof.
  intros Hs Hn. unfold Script.loadHistory, Script.bind, Script.getItem. simpl.
  rewrite Hs. destruct entries as [|x entries]; [contradiction|].
  cbn [Script.length_is_zero]. unfold Script.lift.
  now rewrite (table_rows_null _ Hn).
Qed.

End HistoryMore.

Lemma failed_save_changes_nothing_witness :
  Script.saveResult TextHost.host MoreSamples.bad_result_page
  = (Throw SyntaxError, MoreSamples.bad_result_page)
  /\ Script.saveResult TextHost.host MoreSamples.number_stored_page
     = (Throw TypeError, MoreSamples.number_stored_page).
Proof.
  split.
  - apply (proj1 (failed_save_changes_nothing TextHost.host
                    MoreSamples.bad_result_page "{total:" eq_refl eq_refl)).
    vm_compute. reflexivity.
  - apply (proj2 (failed_save_changes_nothing TextHost.host
                    MoreSamples.number_stored_page
                    (CalculatorSamples.result_of CalculatorSamples.calculated_page)
                    eq_refl eq_refl)
             (CalculatorSamples.entry_of_result CalculatorSamples.calculated_page)).
    + vm_compute. reflexivity.
    + intros es. vm_compute. discriminate.
Defined.

Lemma clear_resets_history_witness :
  let p := CalculatorSamples.saved_page in
  Script.carbonHistory
    (snd (Script.saveResult TextHost.host
            (snd (Script.clearHistory TextHost.host true p))))
  = Some (JSON_stringify TextHost.host
            (JArray [CalculatorSamples.entry_of_result p])).
Proof.
  apply (proj2 (proj2 (clear_resets_history TextHost.host CalculatorSamples.saved_page))
           (CalculatorSamples.result_of CalculatorSamples.saved_page));
    vm_compute; reflexivity.
Defined.

Lemma saved_entries_are_shown_witness :
  Script.loadHistory TextHost.host MoreSamples.two_saved_page
  = (Ok tt,
     with_view
       (Script.Table
          (map (fun ne => row_of (fst ne) (snd ne)) MoreSamples.two_calculations))
       MoreSamples.two_saved_page).
Proof.
  apply (saved_entries_are_shown TextHost.host MoreSamples.two_saved_page
           MoreSamples.two_calculations).
  - discriminate.
  - vm_compute.
    repeat match goal with
           | |- @eq Qc _ _ => apply Qc_is_canon; reflexivity
           | |- _ => f_equal
           end.
Defined.

Lemma null_entry_stops_loading_witness :
  Script.loadHistory TextHost.host (with_storage (Some "[null]"%string) Samples.fresh_page)
  = (Throw TypeError,
     with_view Script.Cleared (with_storage (Some "[null]"%string) Samples.fresh_page)).
Proof.
  apply (null_entry_stops_loading TextHost.host
           (with_storage (Some "[null]"%string) Samples.fresh_page) [JNull]).
  - vm_compute. reflexivity.
  - now left.
Defined.

(** ** The calculation *)

Section Calculation.

Local Open Scope Qc_scope.




Variable host : JSONHost.

(** X17. A calculation leaves its result on the page, replacing any
    earlier one, without touching the stored history or the alerts; a save
    that follows stores the history's list followed by the entry read from
    that result, so only the latest calculation is saved. *)
Theorem calculate_then_save (p : Script.Page)
  (distance mode kWh meatMeals : string) (now : Z) (entry : json) (es : list json) :
  let e := Script.emissions distance mode kWh meatMeals in
  let text := JSON_stringify host (Script.entry_of now e) in
  nonempty text = true ->
  JSON_parse host text = Some entry ->
  Script.stored_history host (Script.carbonHistory p) = JArray es ->
  let run := Script.calculateEmissions host distance mode kWh meatMeals now p in
  fst run = Ok e
  /\ Script.dataset_result (snd run) = Some text
  /\ Script.carbonHistory (snd run) = Script.carbonHistory p
  /\ Script.alerts (snd run) = Script.alerts p
  /\ Script.carbonHistory (snd (Script.saveResult host (snd run)))
     = Some (JSON_stringify host (JArray (es ++ [entry]))).
Proof.
  intros e text Hn He Hs run. repeat (split; [reflexivity|]).
  apply (saveResult_stores host (snd run) text entry es); auto.
Qed.

End Calculation.


Lemma calculate_then_save_witness :
  let host := TextHost.host in
  let p := CalculatorSamples.saved_page in
  let e := Script.emissions "100" "train" "0" "2" in
  let text := JSON_stringify host (Script.entry_of 1700000500000 e) in
  let run := Script.calculateEmissions host "100" "train" "0" "2" 1700000500000 p in
  fst run = Ok e
  /\ Script.dataset_result (snd run) = Some text
  /\ Script.carbonHistory (snd run) = Script.carbonHistory p
  /\ Script.alerts (snd run) = Script.alerts p
  /\ Script.carbonHistory (snd (Script.saveResult host (snd run)))
     = Some (JSON_stringify host
               (JArray (CalculatorSamples.entries_of p
                        ++ [CalculatorSamples.entry_of_result
                              CalculatorSamples.recalculated_page]))).
Proof.
  apply (calculate_then_save TextHost.host CalculatorSamples.saved_page
           "100" "train" "0" "2" 1700000500000);
    vm_compute; reflexivity.
Defined.

(** ** Bar charts *)

Section Bars.

Local Open Scope Qc_scope.

Lemma max2_Fin (a x : Qc) :
  Charts.max2 (Fin a) (Fin x) = Fin (if Qclt_le_dec a x then x else a).
Proof.
  unfold Charts.max2. destruct (gt0 (sub (Fin x) (Fin a))) eqn:E.
  - apply gt0_sub_Fin in E. destruct (Qclt_le_dec a x) as [_|L]; [reflexivity|].
    exfalso. exact (Qclt_not_le _ _ E L).
  - destruct (Qclt_le_dec a x) as [L|_]; [|reflexivity].
    apply gt0_sub_Fin in L. congruence.
Qed.

Lemma fold_max_Fin (l : list num) (a : Qc) :
  Forall finite l ->
  exists m, fold_left Charts.max2 l (Fin a) = Fin m
            /\ a <= m /\ (m = a \/ In (Fin m) l)
            /\ forall x, In x l -> qval x <= m.
Proof.
  revert a. induction l as [|x l IH]; intros a F.
  - exists a. simpl. repeat split; [apply Qcle_refl | now left | tauto].
  - inversion F as [|? ? Fx Fl]; subst. cbn [fold_left].
    rewrite (finite_inv _ Fx), max2_Fin.
    destruct (Qclt_le_dec a (qval x)) as [L|L].
    + destruct (IH (qval x) Fl) as [m [E [Hm [Hin Hall]]]].
      exists m. split; [exact E|]. split.
      * apply Qclt_le_weak. exact (Qclt_le_trans _ _ _ L Hm).
      * split.
        -- right. destruct Hin as [->|Hin]; [now left | now right].
        -- intros y [<-|Hy]; [exact Hm | now apply Hall].
    + destruct (IH a Fl) as [m [E [Hm [Hin Hall]]]].
      exists m. split; [exact E|]. split; [exact Hm|]. split.
      * destruct Hin as [->|Hin]; [now left | right; now right].
      * intros y [<-|Hy]; [exact (Qcle_trans _ _ _ L Hm) | now apply Hall].
Qed.

Lemma Math_max_Fin (l : list num) :
  Forall finite l -> l <> [] ->
  exists m, Charts.Math_max l = Fin m /\ In (Fin m) l
            /\ forall x, In x l -> qval x <= m.
Proof.
  intros F Hne. destruct l as [|x l]; [contradiction|].
  inversion F as [|? ? Fx Fl]; subst.
  unfold Charts.Math_max. cbn [fold_left].
  rewrite (finite_inv _ Fx).
  change (Charts.max2 NInf (Fin (qval x))) with (Fin (qval x)).
  destruct (fold_max_Fin l (qval x) Fl) as [m [E [Hm [Hin Hall]]]].
  exists m. split; [exact E|]. split.
  - destruct Hin as [->|Hin]; [now left | now right].
  - intros y [<-|Hy]; [rewrite (finite_inv _ Fx); exact Hm | now apply Hall].
Qed.





End Bars.


(** ** The line chart *)

Section LineChart.

Local Open Scope Qc_scope.

Lemma qz_add (a b : Z) :
  Q2Qc (inject_Z a) + Q2Qc (inject_Z b) = Q2Qc (inject_Z (a + b)).
Proof.
  apply Qc_is_canon. unfold Qcplus, Q2Qc. cbn [this].
  rewrite !Qred_correct. rewrite inject_Z_plus. reflexivity.
Qed.

Lemma qz_opp (a : Z) : - Q2Qc (inject_Z a) = Q2Qc (inject_Z (- a)).
Proof.
  apply Qc_is_canon. unfold Qcopp, Q2Qc. cbn [this].
  rewrite !Qred_correct. rewrite inject_Z_opp. reflexivity.
Qed.

Lemma qz_inj (a b : Z) : Q2Qc (inject_Z a) = Q2Qc (inject_Z b) -> a = b.
Proof.
  intros H. apply Q2Qc_eq_iff in H. exact (proj1 (inject_Z_injective a b) H).
Qed.

Lemma or1_pred (n : nat) :
  exists d, Charts.or1 (sub (Charts.of_nat n) (of_Z 1)) = Fin d /\ d <> 0
            /\ (2 <= n -> d = Q2Qc (inject_Z (Z.of_nat n - 1)))%nat.
Proof.
  unfold Charts.of_nat, of_Z, sub. cbn [neg add]. rewrite qz_opp, qz_add.
  unfold Charts.or1, truthy.
  destruct (Qc_eq_dec (Q2Qc (inject_Z (Z.of_nat n + - (1)))) 0) as [E|N].
  - exists (Q2Qc (inject_Z 1)). split; [reflexivity|]. split; [discriminate|].
    intros H. apply (qz_inj _ 0) in E. lia.
  - eexists. split; [reflexivity|]. split; [exact N|]. intros _. reflexivity.
Qed.

Lemma plot_length cw ch m n idx (values : list num) :
  List.length (Charts.plot cw ch m n idx values) = List.length values.
Proof.
  revert idx. induction values as [|v values IH]; intros idx; simpl; [reflexivity|].
  now rewrite IH.
Qed.

Lemma plot_app cw ch m n idx (l1 l2 : list num) :
  Charts.plot cw ch m n idx (l1 ++ l2)
  = Charts.plot cw ch m n idx l1
    ++ Charts.plot cw ch m n (idx + List.length l1) l2.
Proof.
  revert idx. induction l1 as [|v l1 IH]; intros idx; simpl.
  - now rewrite Nat.add_0_r.
  - rewrite IH. do 3 f_equal. lia.
Qed.

Lemma plot_heights cw ch m n idx (values : list num) :
  map snd (Charts.plot cw ch m n idx values)
  = map (fun val => add Charts.margin (mul ch (sub (of_Z 1) (div val m)))) values.
Proof.
  revert idx. induction values as [|v values IH]; intros idx; simpl; [reflexivity|].
  now rewrite IH.
Qed.

Lemma ratio_bounds (v m : Qc) :
  0 < m -> 0 <= v -> v <= m -> 0 <= v / m /\ v / m <= 1.
Proof.
  intros Hm H0 Hv.
  assert (Hm0 : m <> 0) by (intros E; subst; exact (Qclt_not_eq _ _ Hm eq_refl)).
  assert (E : v / m * m = v).
  { unfold Qcdiv. rewrite <- Qcmult_assoc, Qcmult_inv_l by exact Hm0. ring. }
  split; apply (Qcmult_lt_0_le_reg_r _ _ m Hm); rewrite E.
  - now rewrite Qcmult_0_l.
  - now rewrite Qcmult_1_l.
Qed.

Lemma height_bounds (ch v m : Qc) :
  0 < m -> 0 <= v -> v <= m -> 0 <= ch ->
  add Charts.margin (mul (Fin ch) (sub (of_Z 1) (div (Fin v) (Fin m))))
  = Fin (Q2Qc (inject_Z 40) + ch * (1 - v / m))
  /\ Q2Qc (inject_Z 40) <= Q2Qc (inject_Z 40) + ch * (1 - v / m)
  /\ Q2Qc (inject_Z 40) + ch * (1 - v / m) <= Q2Qc (inject_Z 40) + ch.
Proof.
  intros Hm H0 Hv Hc.
  assert (Hm0 : m <> 0) by (intros E; subst; exact (Qclt_not_eq _ _ Hm eq_refl)).
  destruct (ratio_bounds v m Hm H0 Hv) as [R0 R1].
  split.
  - unfold div. destruct (Qc_eq_dec m 0); [contradiction|]. reflexivity.
  - assert (P : 0 <= 1 - v / m).
    { unfold Qcminus. now apply (proj1 (Qcle_minus_iff (v / m) 1)). }
    assert (Q : 1 - v / m <= 1).
    { apply Qcle_minus_iff. replace (1 + - (1 - v / m)) with (v / m) by ring.
      exact R0. }
    split.
    + rewrite <- (Qcplus_0_r (Q2Qc (inject_Z 40))) at 1.
      apply Qcplus_le_compat; [apply Qcle_refl|].
      rewrite <- (Qcmult_0_l ch), (Qcmult_comm ch).
      now apply Qcmult_le_compat_r.
    + apply Qcplus_le_compat; [apply Qcle_refl|].
      rewrite <- (Qcmult_1_l ch) at 2. rewrite (Qcmult_comm ch).
      now apply Qcmult_le_compat_r.
Qed.

Lemma chart_side (w : Qc) :
  sub (Fin w) (mul Charts.margin (of_Z 2)) = Fin (w - Q2Qc (inject_Z 80)).
Proof.
  unfold sub, Charts.margin, of_Z. cbn [mul neg add]. unfold Qcminus.
  replace (- (Q2Qc (inject_Z 40) * Q2Qc (inject_Z 2))) with (- Q2Qc (inject_Z 80))
    by (apply Qc_is_canon; reflexivity).
  reflexivity.
Qed.

(** X19. The line chart plots one point per value.  The first point is
    at the left margin and, with two labels or more, the last one at the
    right margin; with a single label the divisor is 1, so there is no
    division by zero.  When the values are finite and not negative, the
    largest is positive and the canvas is at least two margins high, every
    point lies between the top and the bottom margin. *)
Theorem line_chart_geometry (width height : Qc) (labels : list string)
  (values : list num) :
  labels <> [] -> List.length values = List.length labels ->
  exists chart,
    Charts.drawLineChart (Fin width) (Fin height) labels values = Some chart
    /\ List.length (Charts.points chart) = List.length values
    /\ option_map fst (hd_error (Charts.points chart)) = Some Charts.margin
    /\ ((2 <= List.length labels)%nat ->
        option_map fst (hd_error (rev (Charts.points chart)))
        = Some (Fin (width - Q2Qc (inject_Z 40))))
    /\ (Forall (fun v => finite v /\ 0 <= qval v) values ->
        gt0 (Charts.Math_max values) = true ->
        Q2Qc (inject_Z 80) <= height ->
        Forall (fun p => exists y, snd p = Fin y
                                   /\ Q2Qc (inject_Z 40) <= y
                                   /\ y <= height - Q2Qc (inject_Z 40))
          (Charts.points chart)).
Proof.
  intros Hne Hlen.
  destruct labels as [|l0 ls] eqn:El; [contradiction|]. rewrite <- El in *.
  unfold Charts.drawLineChart. rewrite El. rewrite <- El.
  eexists. split; [reflexivity|]. cbn [Charts.points].
  set (cw := sub (Fin width) (mul Charts.margin (of_Z 2))).
  set (ch := sub (Fin height) (mul Charts.margin (of_Z 2))).
  set (m := Charts.Math_max values).
  destruct (or1_pred (List.length labels)) as [d [Ed [Hd Hd2]]].
  assert (Ecw : cw = Fin (width - Q2Qc (inject_Z 80))) by apply chart_side.
  assert (Ech : ch = Fin (height - Q2Qc (inject_Z 80))) by apply chart_side.
  split; [apply plot_length|]. split; [|split].
  - destruct values as [|v values]; [rewrite El in Hlen; discriminate|].
    cbn [Charts.plot hd_error option_map fst]. f_equal.
    rewrite Ed, Ecw. unfold Charts.of_nat, Charts.margin. unfold of_Z. cbn [mul].
    unfold div. destruct (Qc_eq_dec d 0); [contradiction|]. cbn [add]. f_equal.
    unfold Qcdiv. change (Q2Qc (inject_Z (Z.of_nat 0))) with 0. ring.
  - intros H2. rewrite <- Hlen in H2, Hd2, Ed.
    destruct (rev values) as [|v rv] eqn:Er.
    { apply (f_equal (@List.length num)) in Er. rewrite length_rev in Er.
      simpl in Er. lia. }
    assert (Ev : values = rev rv ++ [v]).
    { rewrite <- (rev_involutive values), Er. reflexivity. }
    rewrite <- Hlen.
    replace (Charts.plot cw ch m (List.length values) 0 values)
      with (Charts.plot cw ch m (List.length values) 0 (rev rv ++ [v]))
      by (rewrite <- Ev; reflexivity).
    rewrite plot_app, rev_app_distr.
    cbn [Charts.plot rev app hd_error option_map fst]. f_equal.
    rewrite Ed, Ecw, (Hd2 H2). unfold Charts.of_nat, Charts.margin. unfold of_Z. cbn [mul].
    assert (Ei : Z.of_nat (0 + List.length (rev rv)) = (Z.of_nat (List.length values) - 1)%Z).
    { rewrite Ev, length_app. simpl. lia. }
    rewrite Ei. rewrite (Hd2 H2) in Hd.
    unfold div. destruct (Qc_eq_dec _ 0) as [E0|_]; [contradiction|].
    cbn [add]. f_equal. unfold Qcdiv.
    rewrite <- Qcmult_assoc, Qcmult_inv_r by exact Hd.
    unfold Qcminus. rewrite !qz_opp.
    replace (Q2Qc (inject_Z (- (80)))) with (Q2Qc (inject_Z (-40)) + Q2Qc (inject_Z (-40)))
      by (rewrite qz_add; reflexivity).
    transitivity (width + Q2Qc (inject_Z (-40))
                  + (Q2Qc (inject_Z 40) + Q2Qc (inject_Z (-40)))); [ring|].
    rewrite qz_add. change (40 + -40)%Z with 0%Z.
    change (Q2Qc (inject_Z 0)) with 0. rewrite Qcplus_0_r. reflexivity.
  - intros Fv Hpos Hh.
    assert (Ff : Forall finite values).
    { eapply Forall_impl; [|exact Fv]. intros v [F _]. exact F. }
    destruct (Math_max_Fin values Ff) as [mx [Em [_ Mm]]].
    { intros E. rewrite E, El in Hlen. discriminate. }
    subst m. rewrite Em in Hpos.
    assert (Hm : 0 < mx).
    { unfold gt0 in Hpos. simpl in Hpos.
      destruct (Qccompare mx 0) eqn:C; try discriminate. now apply Qcgt_alt in C. }
    assert (Hc : 0 <= height - Q2Qc (inject_Z 80)).
    { unfold Qcminus. now apply (proj1 (Qcle_minus_iff _ _)). }
    apply Forall_forall. intros p Hp.
    apply (in_map snd) in Hp. rewrite plot_heights in Hp.
    apply in_map_iff in Hp. destruct Hp as [v [Ep Hv]].
    rewrite Forall_forall in Fv. destruct (Fv v Hv) as [Fin_v Pos_v].
    rewrite Em, Ech, (finite_inv _ Fin_v) in Ep.
    destruct (height_bounds (height - Q2Qc (inject_Z 80)) (qval v) mx Hm Pos_v
                (Mm v Hv) Hc) as [Ey [Lo Hi]].
    rewrite Ey in Ep. eexists. split; [symmetry; exact Ep|]. split; [exact Lo|].
    eapply Qcle_trans; [exact Hi|].
    apply Qcle_minus_iff.
    replace (height - Q2Qc (inject_Z 40)
             + - (Q2Qc (inject_Z 40) + (height - Q2Qc (inject_Z 80))))
      with (Q2Qc (inject_Z 80) + - (Q2Qc (inject_Z 40) + Q2Qc (inject_Z 40)))
      by ring.
    rewrite qz_add. change (40 + 40)%Z with 80%Z.
    rewrite Qcplus_opp_r. apply Qcle_refl.
Qed.

End LineChart.

Lemma line_chart_geometry_witness :
  let width := Q2Qc (inject_Z 800) in
  let height := Q2Qc (inject_Z 400) in
  let labels := ["2024-01"; "2024-02"; "2024-03"]%string in
  let values := [of_Z 10; of_Z 40; of_Z 0] in
  exists chart,
    Charts.drawLineChart (Fin width) (Fin height) labels values = Some chart
    /\ List.length (Charts.points chart) = 3%nat
    /\ option_map fst (hd_error (Charts.points chart)) = Some Charts.margin
    /\ option_map fst (hd_error (rev (Charts.points chart)))
       = Some (Fin (width - Q2Qc (inject_Z 40))%Qc)
    /\ Forall (fun p => exists y, snd p = Fin y
                                  /\ (Q2Qc (inject_Z 40) <= y)%Qc
                                  /\ (y <= height - Q2Qc (inject_Z 40))%Qc)
         (Charts.points chart).
Proof.
  cbv zeta.
  destruct (line_chart_geometry (Q2Qc (inject_Z 800)) (Q2Qc (inject_Z 400))
              ["2024-01"; "2024-02"; "2024-03"]%string
              [of_Z 10; of_Z 40; of_Z 0])
    as [chart [E [L [F [La B]]]]].
  - discriminate.
  - reflexivity.
  - exists chart.
    split; [exact E|]. split; [exact L|]. split; [exact F|]. split.
    + apply La. simpl. lia.
    + apply B.
      * repeat constructor; vm_compute; discriminate.
      * vm_compute. reflexivity.
      * vm_compute. discriminate.
Defined.

(** ** Labels of the category chart *)

Section Labels.

Local Open Scope string_scope.

Lemma prefix_drop (p s : string) :
  String.prefix p s = true ->
  (String.length (Charts.drop (String.length p) s) + String.length p
   = String.length s)%nat.
Proof.
  revert s. induction p as [|c p IH]; intros s H.
  - destruct s; simpl; lia.
  - destruct s as [|d s]; [discriminate|]. simpl in H.
    destruct (ascii_dec c d); [|discriminate].
    cbn [String.length Charts.drop]. specialize (IH s H). lia.
Qed.

Lemma remove_first_length (pat s : string) :
  String.length (Charts.remove_first pat s) = String.length s
  \/ (String.length (Charts.remove_first pat s) + String.length pat
      = String.length s)%nat.
Proof.
  induction s as [|c s IH].
  - destruct pat; simpl; auto.
  - cbn [Charts.remove_first].
    destruct (String.prefix pat (String c s)) eqn:P.
    + right. now apply prefix_drop.
    + cbn [String.length]. destruct IH as [E|E]; [left|right]; lia.
Qed.

Lemma spaces_length (s : string) :
  String.length (Charts.spaces_for_underscores s) = String.length s.
Proof. induction s; simpl; congruence. Qed.

Lemma capitalize_length (b : bool) (s : string) :
  String.length (Charts.capitalize b s) = String.length s.
Proof. revert b. induction s; intros b; simpl; [|rewrite IHs]; reflexivity. Qed.

Lemma spaces_no_underscore (s : string) :
  no_underscore (Charts.spaces_for_underscores s) = true.
Proof.
  induction s as [|c s IH]; [reflexivity|].
  cbn [Charts.spaces_for_underscores no_underscore]. rewrite IH.
  destruct (Ascii.eqb c "_") eqn:E; [reflexivity|]. rewrite E. reflexivity.
Qed.

Lemma capital_char (c : ascii) (b : bool) :
  let c' := if Charts.is_word c && negb b then Charts.upper_char c else c in
  Ascii.eqb c' "_" = Ascii.eqb c "_"
  /\ Charts.is_word c' = Charts.is_word c
  /\ b || negb (is_lower c') = true.
Proof.
  destruct c as [[] [] [] [] [] [] [] []]; destruct b; vm_compute;
    repeat split; reflexivity.
Qed.

Lemma capitalize_no_underscore (b : bool) (s : string) :
  no_underscore (Charts.capitalize b s) = no_underscore s.
Proof.
  revert b. induction s as [|c s IH]; intros b; [reflexivity|].
  cbn [Charts.capitalize no_underscore].
  destruct (capital_char c b) as [E _]. cbv zeta in E. rewrite E, IH.
  reflexivity.
Qed.

Lemma capitalize_words (b : bool) (s : string) :
  words_capitalised b (Charts.capitalize b s) = true.
Proof.
  revert b. induction s as [|c s IH]; intros b; [reflexivity|].
  cbn [Charts.capitalize words_capitalised].
  destruct (capital_char c b) as [_ [W L]]. cbv zeta in W, L.
  rewrite L, W, IH. reflexivity.
Qed.

(** X20. The label made from a category key has no underscore, none of
    its words starts with a lower-case letter, and it is as long as the
    key or, when the key contains the text transport_, ten characters
    shorter. *)
Theorem label_is_readable (key : string) :
  let label := Charts.humanReadableCategory key in
  no_underscore label = true
  /\ words_capitalised false label = true
  /\ (String.length label = String.length key
      \/ (String.length label + 10 = String.length key)%nat).
Proof.
  cbv zeta. unfold Charts.humanReadableCategory. split; [|split].
  - rewrite capitalize_no_underscore. apply spaces_no_underscore.
  - apply capitalize_words.
  - rewrite capitalize_length, spaces_length.
    exact (remove_first_length "transport_" key).
Qed.

End Labels.
